(** * Verification of [scripts/create-tabs-pdf.py]

    A shallow embedding of the report builder: the tab classifier, the
    summary counts, the font selection loop and the construction of the
    list of flowables (the "story") handed to the layout library. *)

From Stdlib Require Import Ascii String DecimalString.
From Stdlib Require Import List ZArith QArith Lia Bool.
From Stdlib Require Import Permutation DecimalZ DecimalPos.
Import ListNotations.

Local Open Scope Z_scope.
Local Open Scope list_scope.

(** ** Python strings

    A Python [str] is a sequence of Unicode code points: [len] counts code
    points and slicing cuts between them.  It is modelled as a list of
    code points. *)

Module PyStr.

Definition codepoint := N.
Definition str := list codepoint.

(** An ASCII literal of the source, as a [str]. *)
Definition lit (s : string) : str :=
  map N_of_ascii (list_ascii_of_string s).
Arguments lit s%_string.

(** [a == b] on strings. *)
Fixpoint eqb (a b : str) : bool :=
  match a, b with
  | [], [] => true
  | x :: a', y :: b' => N.eqb x y && eqb a' b'
  | _, _ => false
  end.

(** [s.startswith(prefix)] *)
Fixpoint startswith (prefix s : str) : bool :=
  match prefix, s with
  | [], _ => true
  | _ :: _, [] => false
  | p :: prefix', c :: s' => N.eqb p c && startswith prefix' s'
  end.

(** [sub in s] *)
Fixpoint contains (sub s : str) : bool :=
  startswith sub s ||
  match s with
  | [] => false
  | _ :: s' => contains sub s'
  end.

(** [s.endswith(suffix)] *)
Definition endswith (suffix s : str) : bool :=
  startswith (rev suffix) (rev s).

(** [len(s)], a Python integer. *)
Definition len (s : str) : Z := Z.of_nat (length s).

(** [s[:n]] for a literal [n >= 0]. *)
Definition slice_to (n : nat) (s : str) : str := firstn n s.

(** The truth value of a string: [bool(s)] is [s != ""]. *)
Definition truthy (s : str) : bool :=
  match s with [] => false | _ :: _ => true end.

(** [str(n)] for an integer [n]. *)
Definition of_int (n : Z) : str :=
  lit (NilZero.string_of_int (Z.to_int n)).

(** What the three tests mean, as relations on lists of code points. *)
Definition StartsWith (prefix s : str) : Prop := exists k, s = prefix ++ k.
Definition Contains (sub s : str) : Prop := exists a b, s = a ++ sub ++ b.

End PyStr.

Import PyStr.

(** ** Tab records (the elements of [tabs_data]) *)

Record TabRecord := mkTab {
  index : Z;
  title : str;
  url : str
}.

(** The two list-comprehension conditions of the summary statistics. *)

(** ['[internal]' in t['url'] or t['url'].startswith('chrome://')
     or t['url'].startswith('devtools://')] *)
Definition is_internal (t : TabRecord) : bool :=
  contains (lit "[internal]") (url t)
  || startswith (lit "chrome://") (url t)
  || startswith (lit "devtools://") (url t).

(** [not t['url'] or t['title'] == '(timeout)'] *)
Definition is_empty_or_timeout (t : TabRecord) : bool :=
  negb (truthy (url t)) || eqb (title t) (lit "(timeout)").

(** ** Summary statistics *)

Record SummaryCounts := mkCounts {
  total_tabs : Z;
  regular_tabs : Z;
  internal_tabs : Z;
  empty_tabs : Z
}.

Definition summary (tabs_data : list TabRecord) : SummaryCounts :=
  let total_tabs := Z.of_nat (length tabs_data) in
  let internal_tabs := Z.of_nat (length (filter is_internal tabs_data)) in
  let regular_tabs := total_tabs - internal_tabs in
  let empty_tabs := Z.of_nat (length (filter is_empty_or_timeout tabs_data)) in
  mkCounts total_tabs regular_tabs internal_tabs empty_tabs.

(** ** The layout library's objects, as far as the script builds them

    Lengths are in points; [inch] is reportlab's constant 72.  The products
    such as [0.3*inch] are kept as exact rationals. *)

Module Layout.

Definition inch : Q := 72%Q.

Inductive color :=
| HexColor (code : str)
| black
| grey.

Definition TA_CENTER : Z := 1.

(** The keyword arguments the script passes to [ParagraphStyle]; [parent]
    is the key looked up in the sample style sheet. *)
Record ParagraphStyle := mkStyle {
  style_name : str;
  parent : str;
  fontSize : Z;
  textColor : color;
  spaceAfter : Z;
  spaceBefore : option Z;
  alignment : option Z;
  fontName : str;
  wordWrap : option str
}.

Inductive cmd_arg :=
| ArgColor (c : color)
| ArgStr (s : str)
| ArgNum (q : Q).

(** One command tuple of a [TableStyle]. *)
Record table_cmd := mkCmd {
  cmd_name : str;
  cmd_start : Z * Z;
  cmd_stop : Z * Z;
  cmd_args : list cmd_arg
}.

Inductive Flowable :=
| Paragraph (text : str) (style : ParagraphStyle)
| Spacer (width height : Q)
| Table (data : list (list str)) (colWidths : list Q) (style : list table_cmd).

End Layout.

Import Layout.

(** ** Building the story *)

Section Story.

(** The outcome of font selection. *)
Variables font_name font_name_bold : str.

Definition title_style : ParagraphStyle :=
  mkStyle (lit "CustomTitle") (lit "Heading1") 24 (HexColor (lit "#1a73e8"))
          12 None (Some TA_CENTER) font_name_bold None.

Definition subtitle_style : ParagraphStyle :=
  mkStyle (lit "CustomSubtitle") (lit "Normal") 12 grey
          20 None (Some TA_CENTER) font_name None.

Definition section_heading_style : ParagraphStyle :=
  mkStyle (lit "SectionHeading") (lit "Heading2") 14 (HexColor (lit "#1a73e8"))
          10 (Some 15) None font_name_bold None.

Definition tab_title_style : ParagraphStyle :=
  mkStyle (lit "TabTitle") (lit "Normal") 11 black
          4 None None font_name_bold None.

Definition tab_url_style : ParagraphStyle :=
  mkStyle (lit "TabURL") (lit "Normal") 9 (HexColor (lit "#5f6368"))
          12 None None font_name (Some (lit "CJK")).

Definition summary_data (c : SummaryCounts) : list (list str) :=
  [ [lit "Total Tabs"; of_int (total_tabs c)];
    [lit "Regular Tabs"; of_int (regular_tabs c)];
    [lit "Internal/DevTools Tabs"; of_int (internal_tabs c)];
    [lit "Empty/Timeout Tabs"; of_int (empty_tabs c)] ].

Definition summary_table_style : list table_cmd :=
  [ mkCmd (lit "BACKGROUND") (0, 0) (-1, -1) [ArgColor (HexColor (lit "#f8f9fa"))];
    mkCmd (lit "TEXTCOLOR") (0, 0) (-1, -1) [ArgColor black];
    mkCmd (lit "ALIGN") (0, 0) (-1, -1) [ArgStr (lit "LEFT")];
    mkCmd (lit "FONTNAME") (0, 0) (0, -1) [ArgStr font_name_bold];
    mkCmd (lit "FONTNAME") (1, 0) (-1, -1) [ArgStr font_name];
    mkCmd (lit "FONTSIZE") (0, 0) (-1, -1) [ArgNum 10%Q];
    mkCmd (lit "BOTTOMPADDING") (0, 0) (-1, -1) [ArgNum 8%Q];
    mkCmd (lit "TOPPADDING") (0, 0) (-1, -1) [ArgNum 8%Q];
    mkCmd (lit "GRID") (0, 0) (-1, -1) [ArgNum (1 # 2)%Q; ArgColor grey] ].

Definition summary_table (c : SummaryCounts) : Flowable :=
  Table (summary_data c) [(3 * inch)%Q; ((3 # 2) * inch)%Q] summary_table_style.

(** [f"Tab {tab['index']}: {tab['title']}"] *)
Definition tab_header (tab : TabRecord) : str :=
  lit "Tab " ++ of_int (index tab) ++ lit ": " ++ title tab.

(** The value of [display_url] after the truncation test. *)
Definition display_url (u : str) : str :=
  let display_url := u in
  if len display_url >? 100 then slice_to 97 display_url ++ lit "..."
  else display_url.

(** The markup of the second paragraph of a tab. *)
Definition url_markup (u : str) : str :=
  lit "<font color='#1a73e8'><u>" ++ display_url u ++ lit "</u></font>".

Definition no_url_markup : str := lit "<i>(No URL)</i>".

(** One iteration of [for tab in tabs_data]: three [story.append] calls. *)
Definition add_tab (story : list Flowable) (tab : TabRecord) : list Flowable :=
  let story := story ++ [Paragraph (tab_header tab) tab_title_style] in
  let story :=
    if truthy (url tab)
    then story ++ [Paragraph (url_markup (url tab)) tab_url_style]
    else story ++ [Paragraph no_url_markup tab_url_style] in
  story ++ [Spacer 1 ((1 # 10) * inch)].

(** The story at the point where [doc.build(story)] is called. *)
Definition build_story (tabs_data : list TabRecord) (timestamp : str)
  : list Flowable :=
  let story := [] in
  let story := story ++ [Paragraph (lit "Chrome Browser Tabs Report") title_style] in
  let story := story ++ [Paragraph (lit "Generated on " ++ timestamp) subtitle_style] in
  let story := story ++ [Spacer 1 ((3 # 10) * inch)] in
  let story := story ++ [Paragraph (lit "Overview") section_heading_style] in
  let story := story ++ [summary_table (summary tabs_data)] in
  let story := story ++ [Spacer 1 ((4 # 10) * inch)] in
  let story := story ++ [Paragraph (lit "Detailed Tab List") section_heading_style] in
  fold_left add_tab tabs_data story.

End Story.

(** ** Effects

    The script talks to three collaborators: the console ([print]), the
    font registry ([pdfmetrics.registerFont]) and the document template
    ([doc.build]); it reads the file system ([os.path.exists]) and the
    clock, and it has the layout library parse the markup of each
    [Paragraph] it makes.  A run is modelled as a computation over the
    trace of calls made so far, which either returns or raises. *)

Module Effects.

(** [TTFont(name, filename)] or [TTFont(name, filename, subfontIndex=0)] *)
Record TTFont := mkTTFont {
  face_name : str;
  filename : str;
  subfontIndex : option Z
}.

(** An exception of class [Exception], with its [str(e)]: what a failed
    font registration, a [print] on a stream that cannot take the line, a
    [Paragraph] whose markup does not parse, or a failed build raises.
    Interrupts and exits, which [except Exception] lets through, are
    outside the model. *)
Inductive exn := Exception (msg : str).

Inductive result (A : Type) :=
| Ok (a : A)
| Raise (e : exn).
Arguments Ok {A} a.
Arguments Raise {A} e.


(** What the environment and the layout library answer. *)
Record World := mkWorld {
  (** [os.path.exists(path)] *)
  path_exists : str -> bool;
  (** [pdfmetrics.registerFont(TTFont(...))]: [None] when the font is
      registered, [Some e] when the constructor or the registration raises *)
  registerFont : TTFont -> option exn;
  (** [datetime.now().strftime("%Y-%m-%d %H:%M:%S")] *)
  now_strftime : str;
  (** [doc.build(story)] for the template opened on a file name *)
  doc_build : str -> list Flowable -> option exn;
  (** writing a line to [sys.stdout]: [None] when the line is written,
      [Some e] when the stream raises (it cannot encode a character of the
      line, or it is broken) *)
  stdout_write : str -> option exn;
  (** [Paragraph(text, style)]: [None] when the markup of [text] parses,
      [Some e] when the constructor raises *)
  paragraph_error : str -> ParagraphStyle -> option exn
}.

Inductive event :=
| Printed (line : str)
| RegisterFont (f : TTFont) (outcome : option exn)
| Built (output_filename : str) (story : list Flowable) (outcome : option exn).

Definition trace := list event.

Definition M (A : Type) : Type := trace -> result A * trace.

Definition ret {A} (a : A) : M A := fun t => (Ok a, t).

Definition bind {A B} (m : M A) (k : A -> M B) : M B :=
  fun t =>
    match m t with
    | (Ok a, t') => k a t'
    | (Raise e, t') => (Raise e, t')
    end.

Definition raise {A} (e : exn) : M A := fun t => (Raise e, t).

(** A statement of a [try] block: it is run, and how it ended is handed
    back, so that what follows can go on in the block or enter the
    [except Exception as e] clause. *)
Definition attempt {A} (m : M A) : M (result A) :=
  fun t =>
    match m t with
    | (r, t') => (Ok r, t')
    end.

Definition emit (ev : event) : M unit := fun t => (Ok tt, t ++ [ev]).

Inductive control := Continue | Break.

(** [for x in xs: body] over a loop-carried variable, with [break]. *)
Fixpoint for_in {A V} (xs : list A) (body : A -> V -> M (control * V)) (s : V)
  : M V :=
  match xs with
  | [] => ret s
  | x :: xs' =>
      bind (body x s) (fun r =>
        match r with
        | (Break, s') => ret s'
        | (Continue, s') => for_in xs' body s'
        end)
  end.

End Effects.

Import Effects.

Notation "x <- m ;; k" := (bind m (fun x => k))
  (at level 61, m at next level, right associativity).
Notation "m ;;; k" := (bind m (fun _ => k))
  (at level 61, right associativity).

Section Script.

Variable w : World.

(** [print(line)]: the line is written, or the write raises and nothing
    is printed. *)
Definition print (line : str) : M unit :=
  match stdout_write w line with
  | None => emit (Printed line)
  | Some e => raise e
  end.

Definition pdfmetrics_registerFont (f : TTFont) : M unit :=
  let outcome := registerFont w f in
  emit (RegisterFont f outcome) ;;;
  match outcome with
  | None => ret tt
  | Some e => raise e
  end.

Definition build (output_filename : str) (story : list Flowable) : M unit :=
  let outcome := doc_build w output_filename story in
  emit (Built output_filename story outcome) ;;;
  match outcome with
  | None => ret tt
  | Some e => raise e
  end.

(** [Paragraph(text, style)] *)
Definition new_Paragraph (text : str) (style : ParagraphStyle) : M Flowable :=
  match paragraph_error w text style with
  | None => ret (Paragraph text style)
  | Some e => raise e
  end.

Definition chinese_font_paths : list str :=
  [ lit "/System/Library/Fonts/PingFang.ttc";
    lit "/System/Library/Fonts/STHeiti Light.ttc";
    lit "/System/Library/Fonts/Supplemental/Arial Unicode.ttf";
    lit "/usr/share/fonts/truetype/droid/DroidSansFallbackFull.ttf";
    lit "C:\Windows\Fonts\simhei.ttf";
    lit "C:\Windows\Fonts\msyh.ttc" ].

(** The font object built for a candidate path. *)
Definition font_of_path (font_path : str) : TTFont :=
  if endswith (lit ".ttc") font_path
  then mkTTFont (lit "ChineseFont") font_path (Some 0)
  else mkTTFont (lit "ChineseFont") font_path None.

(** U+2713, the check mark that starts the success lines. *)
Definition check_mark : str := [10003%N].

Definition registered_line (font_path : str) : str :=
  check_mark ++ lit " Registered Chinese font: " ++ font_path.

Definition failed_line (font_path : str) (e : exn) : str :=
  match e with
  | Exception msg => lit "Failed to register " ++ font_path ++ lit ": " ++ msg
  end.

Definition warning_line : str :=
  lit "Warning: No Chinese font found, using fallback (may show squares for Chinese characters)".

(** The [except Exception as e] clause of the loop body: it prints and
    goes on to the next candidate, with the variable as the [try] block
    left it. *)
Definition except_clause (font_path : str) (e : exn)
           (chinese_font_registered : bool) : M (control * bool) :=
  print (failed_line font_path e) ;;;
  ret (Continue, chinese_font_registered).

(** The body of [for font_path in chinese_font_paths]; the loop-carried
    variable is [chinese_font_registered].  Two statements of the [try]
    block can raise: the registration, before the variable is set, and the
    [print] of the success line, after it. *)
Definition try_font (font_path : str) (chinese_font_registered : bool)
  : M (control * bool) :=
  if path_exists w font_path then
    r <- attempt (pdfmetrics_registerFont (font_of_path font_path)) ;;
    match r with
    | Raise e => except_clause font_path e chinese_font_registered
    | Ok _ =>
        let chinese_font_registered := true in
        r <- attempt (print (registered_line font_path)) ;;
        match r with
        | Raise e => except_clause font_path e chinese_font_registered
        | Ok _ => ret (Break, chinese_font_registered)
        end
    end
  else ret (Continue, chinese_font_registered).

(** Font selection: returns [(font_name, font_name_bold)]. *)
Definition select_font : M (str * str) :=
  chinese_font_registered <- for_in chinese_font_paths try_font false ;;
  if negb chinese_font_registered then
    print warning_line ;;;
    ret (lit "Helvetica", lit "Helvetica-Bold")
  else
    ret (lit "ChineseFont", lit "ChineseFont").

Definition created_line (output_filename : str) : str :=
  check_mark ++ lit " PDF created successfully: " ++ output_filename.

(** One iteration of [for tab in tabs_data], each [Paragraph] being made
    before it is appended. *)
Definition append_tab (font_name font_name_bold : str)
           (tab : TabRecord) (story : list Flowable)
  : M (control * list Flowable) :=
  header <- new_Paragraph (tab_header tab) (tab_title_style font_name_bold) ;;
  let story := story ++ [header] in
  story <-
    (if truthy (url tab)
     then p <- new_Paragraph (url_markup (url tab)) (tab_url_style font_name) ;;
          ret (story ++ [p])
     else p <- new_Paragraph no_url_markup (tab_url_style font_name) ;;
          ret (story ++ [p])) ;;
  ret (Continue, story ++ [Spacer 1 ((1 # 10) * inch)]).

(** The statements from the title to the end of the tab loop: the story
    as the run makes it, raising where a [Paragraph] does. *)
Definition make_story (font_name font_name_bold : str)
           (tabs_data : list TabRecord) : M (list Flowable) :=
  let story := [] in
  title <- new_Paragraph (lit "Chrome Browser Tabs Report")
                         (title_style font_name_bold) ;;
  let story := story ++ [title] in
  let timestamp := now_strftime w in
  subtitle <- new_Paragraph (lit "Generated on " ++ timestamp)
                            (subtitle_style font_name) ;;
  let story := story ++ [subtitle] in
  let story := story ++ [Spacer 1 ((3 # 10) * inch)] in
  overview_heading <- new_Paragraph (lit "Overview")
                                    (section_heading_style font_name_bold) ;;
  let story := story ++ [overview_heading] in
  let story :=
    story ++ [summary_table font_name font_name_bold (summary tabs_data)] in
  let story := story ++ [Spacer 1 ((4 # 10) * inch)] in
  tabs_heading <- new_Paragraph (lit "Detailed Tab List")
                                (section_heading_style font_name_bold) ;;
  let story := story ++ [tabs_heading] in
  for_in tabs_data (append_tab font_name font_name_bold) story.

(** [create_tabs_pdf(output_filename)], over the list bound to the global
    [tabs_data]. *)
Definition create_tabs_pdf (tabs_data : list TabRecord) (output_filename : str)
  : M unit :=
  fonts <- select_font ;;
  let '(font_name, font_name_bold) := fonts in
  story <- make_story font_name font_name_bold tabs_data ;;
  build output_filename story ;;;
  print (created_line output_filename).

End Script.
Definition default_output_filename : str := lit "chrome_tabs_report.pdf".

(** ** The list bound to [tabs_data] in the script

    Titles outside ASCII are written as their code points. *)

Definition tabs_data : list TabRecord :=
  [
    mkTab 0 (lit "App-Center-ZCP")
      (lit "https://zcp-eng.corp.zoom.us/app/app-center/pipeline-new/detail?workflowId=42a72814-cbe0-4162-a238-743e174d59d0&tab=execution-history&appId=64be15f052304db4f1235ab2");
    mkTab 1 (lit "Page Summary Testing")
      (lit "https://dg01docs.zoom.us/doc/b8NVD5zjSc6eK0CQX8JDMQ");
    mkTab 2 (lit "(timeout)")
      [];
    mkTab 3 (lit "AI Team Task Tracker")
      (lit "https://dg01docs.zoom.us/doc/cpXUnbpKTgWQxE1xmoXPpA");
    mkTab 4 (lit "Session Viewer - Browser Agent")
      (lit "file:///Users/roland.wang/repos/browser-agent/chat-agent/tools/session-viewer.html");
    mkTab 5 (lit "Agent Trace Viewer")
      (lit "file:///Users/roland.wang/repos/browser-agent/chat-agent/tools/trace-viewer.html");
    mkTab 6 (lit "Docs Feature Tags")
      (lit "https://dg01docs.zoom.us/doc/LYPT_PBoT9i-2r3LMzUcew");
    mkTab 7 (lit "Zoom Docs doc-bridge - Cube")
      (lit "https://cube.zoom.us/dashboards/ff46a5a7-9b6a-4ab2-812b-2faa2a2039d3");
    mkTab 8 (lit "A new dataset")
      (lit "https://dg01docs.zoom.us/doc/rZM7lOmRTNWR-rXNb5IZtA");
    mkTab 9 (lit "GitHub - anthropics/skills: Public repository for Agent Skills")
      (lit "https://github.com/anthropics/skills/tree/main");
    mkTab 10 (lit "Docs 2.0 Reader Case")
      (lit "https://dg01docs.zoom.us/doc/QtaAnaO5SquPvVITorHC0A?from=client");
    mkTab 11 (lit "chrome://newtab-footer/")
      (lit "chrome://newtab-footer/ [internal]");
    mkTab 12 (lit "(timeout)")
      [];
    mkTab 13 (lit "DevTools")
      (lit "devtools://devtools/bundled/devtools_app.html [internal]");
    mkTab 14 [38035%N; 40060%N]
      (lit "https://devepdocs.zoomdev.us/doc/XK7D4s6MS3-qvUJ2VX_mBw");
    mkTab 15 (lit "Cost Saving Tips for Claude Code")
      (lit "https://docs.zoom.us/doc/a4iZLHibTEuBFI_0VV1MGg");
    mkTab 16 ([12300%N] ++ lit "Pros Cons " ++ [26694%N; 26550%N; 12301%N; 26159%N; 21542%N; 21512%N; 24182%N] ++ lit " Paper " ++ [19982%N] ++ lit " Docs " ++ [30340%N; 20998%N; 26512%N])
      (lit "https://dg01docs.zoom.us/doc/IRpnAn4nS2OQTYtNrM9Bzw");
    mkTab 17 (lit "Evals - Dataset Design Spec")
      (lit "https://devepdocs.zoomdev.us/doc/2j7B0mmvQAqFdxatDsG9Dg");
    mkTab 18 (lit "agent how to implement todo manager - Google Search")
      (lit "https://www.google.com/search?q=agent+how+to+implement+todo+manager");
    mkTab 19 [38035%N; 40060%N]
      (lit "https://devepdocs.zoomdev.us/doc/XK7D4s6MS3-qvUJ2VX_mBw");
    mkTab 20 (lit "Zoom Docs doc-bridge - Cube")
      (lit "https://cube.zoom.us/dashboards/ff46a5a7-9b6a-4ab2-812b-2faa2a2039d3");
    mkTab 21 (lit "Zebra (Global Tracing)")
      (lit "https://linktrace.zoom.us/tracing/#/configuration/discover");
    mkTab 22 (lit "Requirements")
      (lit "https://dg01docs.zoom.us/doc/PhC9e-z9Q1C5Fm03hUCNQA");
    mkTab 23 ([26368%N; 36817%N] ++ lit " - Zoom Docs")
      (lit "https://docs.zoom.us/recent");
    mkTab 24 (lit "GitHub - steveyegge/beads: Beads - A memory upgrade for your coding agent")
      (lit "https://github.com/steveyegge/beads");
    mkTab 25 (lit "Zoom Docs 2026 Release Cadence")
      (lit "https://dg01docs.zoom.us/doc/nMcSFgF2SXqmhrun8uUjlQ");
    mkTab 26 (lit "Zoom Video Communications - " ++ [30331%N; 24405%N])
      (lit "https://zoom.okta.com/oauth2/default/v1/authorize") ].

(** ** Sample inputs *)

(** A record whose title, and only whose title, carries the marker. *)
Definition marker_in_title : TabRecord :=
  mkTab 0 (lit "notes [internal]") (lit "https://example.com/").

(** The record of tab 2 of the script: no url, title [(timeout)]. *)
Definition timeout_tab : TabRecord := mkTab 2 (lit "(timeout)") [].

(** The record of tab 13 of the script. *)
Definition devtools_tab : TabRecord :=
  mkTab 13 (lit "DevTools")
        (lit "devtools://devtools/bundled/devtools_app.html [internal]").

(** The tabs that are neither internal nor empty-or-timeout. *)
Definition neither_tabs (tabs_data : list TabRecord) : Z :=
  Z.of_nat (length (filter (fun t => negb (is_internal t)
                                     && negb (is_empty_or_timeout t))
                           tabs_data)).

(** The url of tab 0 of the script, 164 characters long. *)
Definition long_url : str :=
  lit "https://zcp-eng.corp.zoom.us/app/app-center/pipeline-new/detail?workflowId=42a72814-cbe0-4162-a238-743e174d59d0&tab=execution-history&appId=64be15f052304db4f1235ab2".

(** ** The story, block by block

    The blocks before the tab list, and the blocks of one tab, written out
    the way the report describes them. *)

Definition front_matter (font_name font_name_bold : str)
           (c : SummaryCounts) (timestamp : str) : list Flowable :=
  [ Paragraph (lit "Chrome Browser Tabs Report") (title_style font_name_bold);
    Paragraph (lit "Generated on " ++ timestamp) (subtitle_style font_name);
    Spacer 1 ((3 # 10) * inch);
    Paragraph (lit "Overview") (section_heading_style font_name_bold);
    summary_table font_name font_name_bold c;
    Spacer 1 ((4 # 10) * inch);
    Paragraph (lit "Detailed Tab List") (section_heading_style font_name_bold) ].

Definition url_line (u : str) : str :=
  match u with
  | [] => lit "<i>(No URL)</i>"
  | _ :: _ => lit "<font color='#1a73e8'><u>" ++ display_url u ++ lit "</u></font>"
  end.

Definition tab_blocks (font_name font_name_bold : str) (tab : TabRecord)
  : list Flowable :=
  [ Paragraph (lit "Tab " ++ of_int (index tab) ++ lit ": " ++ title tab)
              (tab_title_style font_name_bold);
    Paragraph (url_line (url tab)) (tab_url_style font_name);
    Spacer 1 ((1 # 10) * inch) ].

(** ** Reading a trace *)

(** A candidate is usable when its file exists and its registration does
    not raise. *)
Definition usable (w : World) (font_path : str) : bool :=
  path_exists w font_path
  && match registerFont w (font_of_path font_path) with
     | None => true
     | Some _ => false
     end.

(** What a candidate that is not usable leaves in the trace: nothing when
    the file is absent, the failed registration and its console line
    otherwise. *)
Definition skipped_events (w : World) (font_path : str) : list event :=
  if path_exists w font_path then
    match registerFont w (font_of_path font_path) with
    | Some e => [ RegisterFont (font_of_path font_path) (Some e);
                  Printed (failed_line font_path e) ]
    | None => []
    end
  else [].

(** The stories handed to [doc.build] along a trace. *)
Definition stories_built (t : trace) : list (list Flowable) :=
  flat_map (fun ev => match ev with
                      | Built _ story _ => [story]
                      | _ => []
                      end) t.

(** The paragraph that raises first, if any, when the blocks of a story are
    made in order. *)
Fixpoint first_error (w : World) (story : list Flowable) : option exn :=
  match story with
  | [] => None
  | Paragraph text style :: rest =>
      match paragraph_error w text style with
      | Some e => Some e
      | None => first_error w rest
      end
  | _ :: rest => first_error w rest
  end.

(** A console that takes every line. *)
Definition console_ok (w : World) : Prop :=
  forall line, stdout_write w line = None.

(** Sample environments.  The layout library of the samples refuses a text
    that opens a bold tag and does not close it; the plain console takes
    every line, the legacy console only lines of ASCII characters. *)
Definition sample_timestamp : str := lit "2025-01-15 09:30:00".

Definition sample_paragraph_error (text : str) (style : ParagraphStyle)
  : option exn :=
  if contains (lit "<b>") text && negb (contains (lit "</b>") text)
  then Some (Exception (lit "Parse error: saw </para> instead of expected </b>"))
  else None.

Definition plain_console (line : str) : option exn := None.

Definition legacy_console (line : str) : option exn :=
  if forallb (fun c => N.ltb c 128) line then None
  else Some (Exception (lit "'charmap' codec can't encode character")).

(** A Mac with PingFang. *)
Definition mac_world : World :=
  mkWorld (fun p => eqb p (lit "/System/Library/Fonts/PingFang.ttc"))
          (fun _ => None)
          sample_timestamp
          (fun _ _ => None)
          plain_console
          sample_paragraph_error.

(** A Windows machine whose SimHei file is damaged and whose disk is
    full. *)
Definition windows_world : World :=
  mkWorld (fun p => eqb p (lit "C:\Windows\Fonts\simhei.ttf")
                    || eqb p (lit "C:\Windows\Fonts\msyh.ttc"))
          (fun f => if eqb (filename f) (lit "C:\Windows\Fonts\simhei.ttf")
                    then Some (Exception (lit "bad magic number"))
                    else None)
          sample_timestamp
          (fun _ _ => Some (Exception (lit "No space left on device")))
          plain_console
          sample_paragraph_error.

(** A machine with none of the candidate fonts. *)
Definition bare_world : World :=
  mkWorld (fun _ => false) (fun _ => None) sample_timestamp (fun _ _ => None)
          plain_console sample_paragraph_error.

(** A Windows machine with both of its candidate fonts in order, the output
    of the script redirected to a stream that encodes ASCII only. *)
Definition redirected_world : World :=
  mkWorld (fun p => eqb p (lit "C:\Windows\Fonts\simhei.ttf")
                    || eqb p (lit "C:\Windows\Fonts\msyh.ttc"))
          (fun _ => None)
          sample_timestamp
          (fun _ _ => None)
          legacy_console
          sample_paragraph_error.

(** A tab whose title opens a tag that it does not close. *)
Definition bold_tab : TabRecord :=
  mkTab 0 (lit "How to use <b> in HTML") (lit "https://example.com/b").

(** A French Windows machine: SimHei is present and damaged, the error
    message is in French, and the output goes to a stream that encodes
    ASCII only. *)
Definition localized_world : World :=
  mkWorld (fun p => eqb p (lit "C:\Windows\Fonts\simhei.ttf"))
          (fun _ => Some (Exception (lit "fichier endommag" ++ [233%N])))
          sample_timestamp
          (fun _ _ => None)
          legacy_console
          sample_paragraph_error.
(** ** Further sample inputs *)

(** A tab whose page did not answer although it points into the browser. *)
Definition timeout_internal_tab : TabRecord :=
  mkTab 5 (lit "(timeout)") (lit "chrome://settings/").

(** What the detail section shows of a tab: its index, its title and its
    displayed url. *)
Definition same_display (a b : TabRecord) : Prop :=
  index a = index b
  /\ title a = title b
  /\ display_url (url a) = display_url (url b).

(** Two tabs whose urls part after the 97th character. *)
Definition long_tab : TabRecord := mkTab 0 (lit "App-Center-ZCP") long_url.

Definition long_tab' : TabRecord :=
  mkTab 0 (lit "App-Center-ZCP") (firstn 97 long_url ++ lit "/another/page").

Definition long_tab_marked : TabRecord :=
  mkTab 0 (lit "App-Center-ZCP") (firstn 97 long_url ++ lit "/x [internal]").

(** The characters of a decimal numeral, digits and the minus sign, are not
    the colon. *)
Definition not_colon (c : codepoint) : Prop := c <> 58%N.

(** ** More readings of a trace and of a story *)

(** The fonts registered along a trace. *)
Definition registered (t : trace) : list TTFont :=
  flat_map (fun ev => match ev with
                      | RegisterFont f None => [f]
                      | _ => []
                      end) t.

(** The font names a story refers to: the [fontName] of its paragraph
    styles and the arguments of the [FONTNAME] commands of its tables. *)
Definition cmd_fonts (c : table_cmd) : list str :=
  if eqb (cmd_name c) (lit "FONTNAME")
  then flat_map (fun a => match a with ArgStr s => [s] | _ => [] end) (cmd_args c)
  else [].

Definition fonts_used (story : list Flowable) : list str :=
  flat_map (fun b => match b with
                     | Paragraph _ st => [fontName st]
                     | Spacer _ _ => []
                     | Table _ _ cmds => flat_map cmd_fonts cmds
                     end) story.

(** The paragraphs of a story that show the placeholder for a missing url. *)
Definition is_placeholder (b : Flowable) : bool :=
  match b with
  | Paragraph text _ => eqb text (lit "<i>(No URL)</i>")
  | _ => false
  end.

(** * Properties *)

(** ** String tests *)

Lemma eqb_eq (a b : str) : eqb a b = true <-> a = b.
Proof.
  revert b; induction a as [|x a IH]; intros [|y b]; simpl;
    try (split; [discriminate | congruence]); try tauto.
  rewrite andb_true_iff, N.eqb_eq, IH.
  split; [intros [-> ->]; reflexivity | intros [= -> ->]; auto].
Qed.

Lemma startswith_spec (prefix s : str) :
  startswith prefix s = true <-> StartsWith prefix s.
Proof.
  unfold StartsWith.
  revert s; induction prefix as [|p prefix IH]; intros s; simpl.
  - split; [intros _; exists s; reflexivity | reflexivity].
  - destruct s as [|c s].
    + split; [discriminate | intros [k Hk]; discriminate Hk].
    + rewrite andb_true_iff, N.eqb_eq, IH.
      split.
      * intros [-> [k ->]]. exists k; reflexivity.
      * intros [k Hk]. injection Hk as -> ->. split; [reflexivity | now exists k].
Qed.

Lemma contains_spec (sub s : str) :
  contains sub s = true <-> Contains sub s.
Proof.
  unfold Contains.
  induction s as [|c s IH]; simpl; rewrite orb_true_iff, startswith_spec.
  - split.
    + intros [[k Hk] | Hf]; [| discriminate Hf]. exists [], k; exact Hk.
    + intros (a & b & Hab). left.
      destruct a as [|x a]; [| discriminate Hab]. now exists b.
  - rewrite IH. split.
    + intros [[k Hk] | (a & b & Hab)].
      * exists [], k; exact Hk.
      * exists (c :: a), b. simpl. now rewrite Hab.
    + intros (a & b & Hab). destruct a as [|x a].
      * left. now exists b.
      * right. injection Hab as _ Hs. now exists a, b.
Qed.

Lemma truthy_false (s : str) : truthy s = false <-> s = [].
Proof. destruct s; simpl; split; congruence. Qed.

Lemma truthy_true (s : str) : truthy s = true <-> s <> [].
Proof. destruct s; simpl; split; congruence. Qed.

(** ** The classifier *)

(** C1. A tab counts as internal exactly when its url starts with
    [chrome://], or starts with [devtools://], or contains [[internal]];
    two records with the same url are classified alike whatever their
    titles and indexes. *)
Theorem is_internal_iff :
  (forall t : TabRecord,
     is_internal t = true <->
     StartsWith (lit "chrome://") (url t)
     \/ StartsWith (lit "devtools://") (url t)
     \/ Contains (lit "[internal]") (url t))
  /\ (forall i i' ti ti' u,
        is_internal (mkTab i ti u) = is_internal (mkTab i' ti' u)).
Proof.
  split.
  - intros t. unfold is_internal.
    rewrite !orb_true_iff, !startswith_spec, contains_spec. tauto.
  - reflexivity.
Qed.

(** C2. A tab counts as empty-or-timeout exactly when its url is the empty
    string or its title is the string [(timeout)]. *)
Theorem is_empty_or_timeout_iff (t : TabRecord) :
  is_empty_or_timeout t = true <->
  url t = [] \/ title t = lit "(timeout)".
Proof.
  unfold is_empty_or_timeout.
  rewrite orb_true_iff, negb_true_iff, truthy_false, eqb_eq. tauto.
Qed.

(** C6, as stated, fails: the marker in the title alone does not make a tab
    internal. *)
Lemma title_marker_not_internal :
  Contains (lit "[internal]") (title marker_in_title)
  /\ is_internal marker_in_title = false.
Proof.
  split; [| reflexivity].
  apply contains_spec. reflexivity.
Qed.

(** C6, amended. A tab whose url contains [[internal]] is internal, and
    the title is not looked at: replacing the title changes nothing, and a
    tab whose url neither contains [[internal]] nor starts with [chrome://]
    or [devtools://] is not internal, whatever its title contains. *)
Theorem url_marker_internal (t : TabRecord) :
  (Contains (lit "[internal]") (url t) -> is_internal t = true)
  /\ (forall ti, is_internal (mkTab (index t) ti (url t)) = is_internal t)
  /\ (~ Contains (lit "[internal]") (url t) ->
      ~ StartsWith (lit "chrome://") (url t) ->
      ~ StartsWith (lit "devtools://") (url t) ->
      is_internal t = false).
Proof.
  split; [| split].
  - intros H. apply contains_spec in H.
    unfold is_internal. now rewrite H.
  - reflexivity.
  - intros Hm Hc Hd. unfold is_internal.
    destruct (contains (lit "[internal]") (url t)) eqn:Em;
      [exfalso; apply Hm; now apply contains_spec |].
    destruct (startswith (lit "chrome://") (url t)) eqn:Ec;
      [exfalso; apply Hc; now apply startswith_spec |].
    destruct (startswith (lit "devtools://") (url t)) eqn:Ed;
      [exfalso; apply Hd; now apply startswith_spec |].
    reflexivity.
Qed.

Lemma url_marker_internal_witness :
  is_internal devtools_tab = true
  /\ Contains (lit "[internal]") (title marker_in_title)
  /\ is_internal marker_in_title = false.
Proof.
  destruct (url_marker_internal devtools_tab) as (Hurl & _ & _).
  destruct (url_marker_internal marker_in_title) as (_ & _ & Htitle).
  split; [| split].
  - apply Hurl. apply contains_spec. vm_compute. reflexivity.
  - apply contains_spec. vm_compute. reflexivity.
  - apply Htitle; intros H.
    + apply contains_spec in H. vm_compute in H. discriminate H.
    + apply startswith_spec in H. vm_compute in H. discriminate H.
    + apply startswith_spec in H. vm_compute in H. discriminate H.
Defined.

(** ** Summary statistics *)

Lemma length_filter_negb {A} (p : A -> bool) (l : list A) :
  (length (filter (fun x => negb (p x)) l) + length (filter p l))%nat = length l.
Proof.
  induction l as [|x l IH]; simpl; [reflexivity |].
  destruct (p x); simpl; lia.
Qed.

Lemma length_filter_le {A} (p : A -> bool) (l : list A) :
  (length (filter p l) <= length l)%nat.
Proof. pose proof (length_filter_negb p l). lia. Qed.

(** C3. The regular count is the total minus the internal count, so that
    regular + internal = total, and it is the number of tabs that are not
    internal; it is not the number of tabs that are neither internal nor
    empty-or-timeout, and the three partial counts need not add up to the
    total. *)
Theorem regular_is_complement_of_internal :
  (forall tabs_data : list TabRecord,
     let c := summary tabs_data in
     regular_tabs c = total_tabs c - internal_tabs c
     /\ regular_tabs c + internal_tabs c = total_tabs c
     /\ regular_tabs c
        = Z.of_nat (length (filter (fun t => negb (is_internal t)) tabs_data))
     /\ 0 <= regular_tabs c <= total_tabs c)
  /\ (let c := summary [timeout_tab] in
      regular_tabs c = 1 /\ neither_tabs [timeout_tab] = 0
      /\ regular_tabs c + empty_tabs c > total_tabs c)
  /\ (let c := summary [devtools_tab] in
      regular_tabs c + empty_tabs c < total_tabs c).
Proof.
  split; [| split; [vm_compute; intuition congruence | vm_compute; reflexivity]].
  intros tabs_data c. subst c. unfold summary; simpl.
  pose proof (length_filter_negb is_internal tabs_data) as H.
  pose proof (length_filter_le is_internal tabs_data) as Hle.
  repeat split; lia.
Qed.

(** C4. The total count is the length of the sequence, and the summary of
    the empty sequence is all zeros. *)
Theorem total_is_length :
  (forall tabs_data : list TabRecord,
     total_tabs (summary tabs_data) = Z.of_nat (length tabs_data))
  /\ summary [] = mkCounts 0 0 0 0.
Proof. split; reflexivity. Qed.

(** The counts of the script's own table. *)
Example summary_tabs_data : summary tabs_data = mkCounts 27 25 2 2.
Proof. vm_compute. reflexivity. Qed.

(** ** The story *)

Section StoryFacts.

Variables font_name font_name_bold : str.

Lemma add_tab_blocks (story : list Flowable) (tab : TabRecord) :
  add_tab font_name font_name_bold story tab
  = story ++ tab_blocks font_name font_name_bold tab.
Proof.
  unfold add_tab, tab_blocks, url_line, url_markup, no_url_markup, tab_header.
  destruct (url tab); simpl; rewrite <- !app_assoc; reflexivity.
Qed.

Lemma fold_add_tab (tabs_data : list TabRecord) (story : list Flowable) :
  fold_left (add_tab font_name font_name_bold) tabs_data story
  = story ++ flat_map (tab_blocks font_name font_name_bold) tabs_data.
Proof.
  revert story; induction tabs_data as [|tab tabs IH]; intros story; simpl.
  - now rewrite app_nil_r.
  - rewrite IH, add_tab_blocks, <- app_assoc. reflexivity.
Qed.

Lemma build_story_blocks (tabs_data : list TabRecord) (timestamp : str) :
  build_story font_name font_name_bold tabs_data timestamp
  = front_matter font_name font_name_bold (summary tabs_data) timestamp
    ++ flat_map (tab_blocks font_name font_name_bold) tabs_data.
Proof. unfold build_story. rewrite fold_add_tab. reflexivity. Qed.

Lemma length_flat_map_tab_blocks (tabs_data : list TabRecord) :
  length (flat_map (tab_blocks font_name font_name_bold) tabs_data)
  = (3 * length tabs_data)%nat.
Proof. induction tabs_data as [|tab tabs IH]; simpl; lia. Qed.

Lemma nth_error_tab_blocks (tabs_data : list TabRecord) (n k : nat) (tab : TabRecord) :
  nth_error tabs_data n = Some tab ->
  (k < 3)%nat ->
  nth_error (flat_map (tab_blocks font_name font_name_bold) tabs_data) (3 * n + k)
  = nth_error (tab_blocks font_name font_name_bold tab) k.
Proof.
  revert n; induction tabs_data as [|t tabs IH]; intros n Hn Hk.
  - destruct n; discriminate Hn.
  - destruct n as [|n].
    + injection Hn as ->.
      destruct k as [|[|[|k]]]; try lia; reflexivity.
    + simpl in Hn.
      replace (3 * S n + k)%nat with (S (S (S (3 * n + k)))) by lia.
      simpl. now apply IH.
Qed.

End StoryFacts.

(** C5. For a non-empty url: longer than 100 characters, the displayed url
    is its first 97 characters followed by three dots, 100 characters in
    all; otherwise it is the url itself.  The displayed url is what the
    second paragraph of the tab wraps in its link markup. *)
Theorem display_url_truncates (u : str) :
  u <> [] ->
  (len u > 100 ->
     display_url u = firstn 97 u ++ lit "..." /\ len (display_url u) = 100)
  /\ (len u <= 100 -> display_url u = u)
  /\ (forall fn fnb story i ti,
        nth_error (add_tab fn fnb story (mkTab i ti u)) (length story + 1)
        = Some (Paragraph (lit "<font color='#1a73e8'><u>" ++ display_url u
                             ++ lit "</u></font>")
                          (tab_url_style fn))).
Proof.
  intros Hu. unfold display_url, slice_to, len. repeat split.
  - destruct (Z.gtb_spec (Z.of_nat (length u)) 100); [reflexivity | lia].
  - destruct (Z.gtb_spec (Z.of_nat (length u)) 100); [| lia].
    rewrite length_app, firstn_length_le by lia. reflexivity.
  - intros Hle.
    destruct (Z.gtb_spec (Z.of_nat (length u)) 100); [lia | reflexivity].
  - intros fn fnb story i ti.
    rewrite add_tab_blocks, nth_error_app2 by lia.
    replace (length story + 1 - length story)%nat with 1%nat by lia.
    destruct u as [|c u]; [congruence | reflexivity].
Qed.

Lemma display_url_truncates_witness :
  long_url <> []
  /\ display_url long_url
     = lit "https://zcp-eng.corp.zoom.us/app/app-center/pipeline-new/detail?workflowId=42a72814-cbe0-4162-a23..."
  /\ len (display_url long_url) = 100.
Proof.
  assert (Hne : long_url <> []) by discriminate.
  destruct (display_url_truncates long_url Hne) as [Hlong _].
  destruct Hlong as [Heq Hlen]; [reflexivity |].
  split; [exact Hne | split; [rewrite Heq; reflexivity | exact Hlen]].
Defined.

(** C7. In the story, the tab at position [n] of the input occupies the
    three blocks from 7 + 3n on: a header paragraph whose text is
    [Tab {index}: {title}], then one paragraph that shows the (possibly
    truncated) url as a link, or the italic [(No URL)] when the url is
    empty, then a spacer. *)
Theorem detail_section_lines
        (fn fnb : str) (tabs_data : list TabRecord) (timestamp : str)
        (n : nat) (tab : TabRecord) :
  nth_error tabs_data n = Some tab ->
  let story := build_story fn fnb tabs_data timestamp in
  nth_error story (7 + 3 * n)
  = Some (Paragraph (lit "Tab " ++ of_int (index tab) ++ lit ": " ++ title tab)
                    (tab_title_style fnb))
  /\ nth_error story (7 + 3 * n + 1)
     = Some (Paragraph
               (match url tab with
                | [] => lit "<i>(No URL)</i>"
                | _ :: _ => lit "<font color='#1a73e8'><u>"
                            ++ display_url (url tab) ++ lit "</u></font>"
                end)
               (tab_url_style fn))
  /\ nth_error story (7 + 3 * n + 2) = Some (Spacer 1 ((1 # 10) * inch)).
Proof.
  intros Hn story. subst story. rewrite build_story_blocks.
  pose proof (nth_error_tab_blocks fn fnb tabs_data n) as H.
  repeat split.
  - rewrite nth_error_app2 by (simpl; lia).
    replace (7 + 3 * n - length (front_matter fn fnb (summary tabs_data) timestamp))%nat
      with (3 * n + 0)%nat by (simpl; lia).
    rewrite (H 0%nat tab Hn) by lia. reflexivity.
  - rewrite nth_error_app2 by (simpl; lia).
    replace (7 + 3 * n + 1 - length (front_matter fn fnb (summary tabs_data) timestamp))%nat
      with (3 * n + 1)%nat by (simpl; lia).
    rewrite (H 1%nat tab Hn) by lia. reflexivity.
  - rewrite nth_error_app2 by (simpl; lia).
    replace (7 + 3 * n + 2 - length (front_matter fn fnb (summary tabs_data) timestamp))%nat
      with (3 * n + 2)%nat by (simpl; lia).
    rewrite (H 2%nat tab Hn) by lia. reflexivity.
Qed.

Lemma detail_section_lines_witness :
  nth_error [timeout_tab] 0 = Some timeout_tab
  /\ is_empty_or_timeout timeout_tab = true
  /\ is_internal timeout_tab = false
  /\ let story := build_story (lit "Helvetica") (lit "Helvetica-Bold")
                              [timeout_tab] sample_timestamp in
     nth_error story 7
     = Some (Paragraph (lit "Tab 2: (timeout)")
                       (tab_title_style (lit "Helvetica-Bold")))
     /\ nth_error story 8
        = Some (Paragraph (lit "<i>(No URL)</i>")
                          (tab_url_style (lit "Helvetica"))).
Proof.
  assert (H0 : nth_error [timeout_tab] 0 = Some timeout_tab) by reflexivity.
  destruct (detail_section_lines (lit "Helvetica") (lit "Helvetica-Bold")
              [timeout_tab] sample_timestamp 0 timeout_tab H0)
    as (Hh & Hu & _).
  split; [exact H0 |].
  split; [reflexivity |].
  split; [reflexivity |].
  split; [exact Hh | exact Hu].
Defined.

(** C10. The story of N tabs has 7 + 3N blocks: the title, the timestamp
    subtitle, a spacer, the Overview heading, the summary table, a spacer,
    the Detailed Tab List heading, and then three blocks for each tab
    (header, url or placeholder, spacer), with or without a url. *)
Theorem story_shape (fn fnb : str) (tabs_data : list TabRecord) (timestamp : str) :
  build_story fn fnb tabs_data timestamp
  = [ Paragraph (lit "Chrome Browser Tabs Report") (title_style fnb);
      Paragraph (lit "Generated on " ++ timestamp) (subtitle_style fn);
      Spacer 1 ((3 # 10) * inch);
      Paragraph (lit "Overview") (section_heading_style fnb);
      summary_table fn fnb (summary tabs_data);
      Spacer 1 ((4 # 10) * inch);
      Paragraph (lit "Detailed Tab List") (section_heading_style fnb) ]
    ++ flat_map (tab_blocks fn fnb) tabs_data
  /\ length (build_story fn fnb tabs_data timestamp)
     = (7 + 3 * length tabs_data)%nat
  /\ (forall tab, length (tab_blocks fn fnb tab) = 3%nat).
Proof.
  rewrite build_story_blocks. repeat split.
  rewrite length_app, length_flat_map_tab_blocks. reflexivity.
Qed.


(** ** Font selection *)

Lemma for_in_cons {A V} (x : A) (xs : list A)
      (body : A -> V -> M (control * V)) (s : V) (t : trace) :
  for_in (x :: xs) body s t =
  match body x s t with
  | (Ok (Break, s'), t') => (Ok s', t')
  | (Ok (Continue, s'), t') => for_in xs body s' t'
  | (Raise e, t') => (Raise e, t')
  end.
Proof.
  simpl. unfold bind.
  destruct (body x s t) as [[[[] s']|e] t']; reflexivity.
Qed.

Lemma stories_built_app (t1 t2 : trace) :
  stories_built (t1 ++ t2) = stories_built t1 ++ stories_built t2.
Proof. apply flat_map_app. Qed.

Lemma registered_app (t1 t2 : trace) :
  registered (t1 ++ t2) = registered t1 ++ registered t2.
Proof. apply flat_map_app. Qed.

Section FontFacts.

Variable w : World.

(** One pass through the loop body, by cases on the environment: the file
    is absent; the registration raises; the font is registered and the
    success line printed; the font is registered and the success line
    cannot be printed.  In the second and fourth case the failure line is
    printed, and if that cannot be done the exception leaves the loop. *)
Lemma try_font_cases (q : str) (flag : bool) (t : trace) :
  try_font w q flag t =
  if path_exists w q then
    match registerFont w (font_of_path q) with
    | Some e =>
        match stdout_write w (failed_line q e) with
        | None =>
            (Ok (Continue, flag),
             t ++ [ RegisterFont (font_of_path q) (Some e);
                    Printed (failed_line q e) ])
        | Some e' => (Raise e', t ++ [RegisterFont (font_of_path q) (Some e)])
        end
    | None =>
        match stdout_write w (registered_line q) with
        | None =>
            (Ok (Break, true),
             t ++ [ RegisterFont (font_of_path q) None;
                    Printed (registered_line q) ])
        | Some e =>
            match stdout_write w (failed_line q e) with
            | None =>
                (Ok (Continue, true),
                 t ++ [ RegisterFont (font_of_path q) None;
                        Printed (failed_line q e) ])
            | Some e' => (Raise e', t ++ [RegisterFont (font_of_path q) None])
            end
        end
    end
  else (Ok (Continue, flag), t).
Proof.
  unfold try_font, except_clause, attempt, pdfmetrics_registerFont, print,
    bind, emit, ret, raise.
  destruct (path_exists w q); [| reflexivity].
  destruct (registerFont w (font_of_path q)) as [e|]; cbv beta iota.
  - destruct (stdout_write w (failed_line q e)); cbv beta iota;
      [reflexivity | now rewrite <- app_assoc].
  - destruct (stdout_write w (registered_line q)) as [e|]; cbv beta iota.
    + destruct (stdout_write w (failed_line q e)); cbv beta iota;
        [reflexivity | now rewrite <- app_assoc].
    + now rewrite <- app_assoc.
Qed.

(** What one pass adds to the trace, whatever the console does. *)
Lemma try_font_step (q : str) (flag : bool) (t : trace)
      (r : result (control * bool)) (t' : trace) :
  try_font w q flag t = (r, t') ->
  exists ev,
    t' = t ++ ev
    /\ stories_built ev = []
    /\ (forall f o, In (RegisterFont f o) ev ->
          path_exists w q = true /\ f = font_of_path q /\ o = registerFont w f)
    /\ registered ev = (if usable w q then [font_of_path q] else [])
    /\ match r with
       | Ok (Break, flag') => flag' = true /\ usable w q = true
       | Ok (Continue, flag') => flag' = flag || usable w q
       | Raise _ => True
       end.
Proof.
  rewrite try_font_cases. unfold usable.
  destruct (path_exists w q) eqn:Hex.
  - destruct (registerFont w (font_of_path q)) as [e|] eqn:Hreg.
    + destruct (stdout_write w (failed_line q e)); intros [= <- <-];
        eexists; (split; [reflexivity |]); (split; [reflexivity |]);
        (split; [| split; [reflexivity |]]);
        try (now rewrite orb_false_r); try exact I;
        intros f o [H | H]; try (destruct H as [H | []]); try discriminate H;
        try contradiction; injection H as <- <-; now rewrite Hreg.
    + destruct (stdout_write w (registered_line q)) as [e|];
        [destruct (stdout_write w (failed_line q e)) |];
        intros [= <- <-];
        eexists; (split; [reflexivity |]); (split; [reflexivity |]);
        (split; [| split; [reflexivity |]]);
        try (now rewrite orb_true_r); try exact I; try (now split);
        intros f o [H | H]; try (destruct H as [H | []]); try discriminate H;
        try contradiction; injection H as <- <-; now rewrite Hreg.
  - intros [= <- <-]. exists []. rewrite app_nil_r.
    repeat split; try contradiction. now rewrite orb_false_r.
Qed.

(** The loop over any list of candidates, whatever the console does: it adds
    to the trace; every font it hands to [registerFont] comes from a
    candidate whose file exists; and when it ends without raising, the flag
    tells whether some candidate was usable, which is also whether some font
    was registered. *)
Lemma for_in_try_font_inv (paths : list str) (flag : bool) (t : trace)
      (r : result bool) (t' : trace) :
  for_in paths (try_font w) flag t = (r, t') ->
  exists ev,
    t' = t ++ ev
    /\ stories_built ev = []
    /\ (forall f o, In (RegisterFont f o) ev ->
          exists q, In q paths /\ path_exists w q = true
                    /\ f = font_of_path q /\ o = registerFont w f)
    /\ (forall flag', r = Ok flag' ->
          flag' = flag || existsb (usable w) paths
          /\ (registered ev = [] <-> existsb (usable w) paths = false)).
Proof.
  revert flag t; induction paths as [|q paths IH]; intros flag t.
  - intros [= <- <-]. exists []. rewrite app_nil_r.
    split; [reflexivity |]. split; [reflexivity |].
    split; [intros f o [] |].
    intros flag' [= <-]. simpl. rewrite orb_false_r. easy.
  - rewrite for_in_cons.
    destruct (try_font w q flag t) as [r1 t1] eqn:Hstep.
    destruct (try_font_step q flag t r1 t1 Hstep)
      as (ev1 & -> & Hs1 & Hreg1 & Hr1 & Hflag1).
    assert (Hin1 : forall f o, In (RegisterFont f o) ev1 ->
              exists q0, In q0 (q :: paths) /\ path_exists w q0 = true
                         /\ f = font_of_path q0 /\ o = registerFont w f).
    { intros f o Hin. exists q. split; [now left | now apply Hreg1]. }
    destruct r1 as [[[] flag1]|e].
    + (* continue *)
      intros Hrest.
      destruct (IH flag1 (t ++ ev1) Hrest) as (ev2 & -> & Hs2 & Hreg2 & Hflag2).
      exists (ev1 ++ ev2). rewrite app_assoc. split; [reflexivity |].
      split; [now rewrite stories_built_app, Hs1, Hs2 |].
      split.
      * intros f o Hin. apply in_app_or in Hin. destruct Hin as [Hin | Hin];
          [now apply Hin1 |].
        destruct (Hreg2 f o Hin) as (q0 & Hq0 & Hrest0).
        exists q0. split; [now right | exact Hrest0].
      * intros flag' Hr. destruct (Hflag2 flag' Hr) as [-> Hiff].
        rewrite Hflag1, registered_app, Hr1. simpl existsb.
        split; [now rewrite orb_assoc |].
        destruct (usable w q); simpl; [split; discriminate | exact Hiff].
    + (* break *)
      intros [= <- <-]. destruct Hflag1 as [-> Hq].
      exists ev1. split; [reflexivity |]. split; [exact Hs1 |].
      split; [exact Hin1 |].
      intros flag' [= <-]. rewrite Hr1. simpl existsb. rewrite Hq.
      split; [now rewrite orb_true_r | split; discriminate].
    + (* the exception leaves the loop *)
      intros [= <- <-].
      exists ev1. split; [reflexivity |]. split; [exact Hs1 |].
      split; [exact Hin1 |]. intros flag' [=].
Qed.

(** Font selection, whatever the console does. *)
Lemma select_font_inv (t : trace) (r : result (str * str)) (t' : trace) :
  select_font w t = (r, t') ->
  exists ev,
    t' = t ++ ev
    /\ stories_built ev = []
    /\ (forall f o, In (RegisterFont f o) ev ->
          exists q, In q chinese_font_paths /\ path_exists w q = true
                    /\ f = font_of_path q /\ o = registerFont w f)
    /\ (forall fonts, r = Ok fonts ->
          fonts = (if existsb (usable w) chinese_font_paths
                   then (lit "ChineseFont", lit "ChineseFont")
                   else (lit "Helvetica", lit "Helvetica-Bold"))
          /\ (registered ev = [] <-> existsb (usable w) chinese_font_paths = false)).
Proof.
  unfold select_font, bind at 1.
  remember chinese_font_paths as paths eqn:Hpaths. clear Hpaths.
  destruct (for_in paths (try_font w) false t) as [r1 t1] eqn:Hloop.
  destruct (for_in_try_font_inv paths false t r1 t1 Hloop)
    as (ev & -> & Hs & Hreg & Hflag).
  destruct r1 as [flag|e].
  - destruct (Hflag flag eq_refl) as [Hf Hiff]. simpl in Hf.
    destruct flag; cbv beta iota delta [negb].
    + intros [= <- <-]. exists ev.
      split; [reflexivity |]. split; [exact Hs |]. split; [exact Hreg |].
      intros fonts [= <-]. split; [now rewrite <- Hf | exact Hiff].
    + unfold bind, print, emit, ret, raise.
      destruct (stdout_write w warning_line); intros [= <- <-].
      * exists ev.
        split; [reflexivity |]. split; [exact Hs |]. split; [exact Hreg |].
        intros fonts [=].
      * exists (ev ++ [Printed warning_line]). rewrite app_assoc.
        split; [reflexivity |].
        split; [rewrite stories_built_app, Hs; reflexivity |].
        split.
        { intros f o Hin. apply in_app_or in Hin.
          destruct Hin as [Hin | [Hin | []]]; [now apply Hreg | discriminate Hin]. }
        intros fonts [= <-]. split; [now rewrite <- Hf |].
        rewrite registered_app. simpl. rewrite app_nil_r. exact Hiff.
  - intros [= <- <-]. exists ev.
    split; [reflexivity |]. split; [exact Hs |]. split; [exact Hreg |].
    intros fonts [=].
Qed.

End FontFacts.

Section ConsoleOk.

Variable w : World.
Hypothesis Hok : console_ok w.

(** One pass through the loop body when every line can be printed. *)
Lemma try_font_run (font_path : str) (flag : bool) (t : trace) :
  try_font w font_path flag t =
  if usable w font_path then
    (Ok (Break, true),
     t ++ [ RegisterFont (font_of_path font_path) None;
            Printed (registered_line font_path) ])
  else
    (Ok (Continue, flag), t ++ skipped_events w font_path).
Proof.
  rewrite try_font_cases. unfold usable, skipped_events.
  destruct (path_exists w font_path); simpl.
  - destruct (registerFont w (font_of_path font_path)) as [e|];
      now rewrite Hok.
  - now rewrite app_nil_r.
Qed.

(** The loop over any list of candidates: it stops at the first usable one,
    or runs through all of them. *)
Lemma for_in_try_font (paths : list str) (t : trace) :
  (exists pre p post,
      paths = pre ++ p :: post
      /\ Forall (fun q => usable w q = false) pre
      /\ usable w p = true
      /\ for_in paths (try_font w) false t
         = (Ok true,
            t ++ flat_map (skipped_events w) pre
              ++ [ RegisterFont (font_of_path p) None;
                   Printed (registered_line p) ]))
  \/ (Forall (fun q => usable w q = false) paths
      /\ for_in paths (try_font w) false t
         = (Ok false, t ++ flat_map (skipped_events w) paths)).
Proof.
  revert t; induction paths as [|q paths IH]; intros t.
  - right. split; [constructor | simpl; now rewrite app_nil_r].
  - rewrite for_in_cons, try_font_run.
    destruct (usable w q) eqn:Hq.
    + left. exists [], q, paths. repeat split; auto.
    + destruct (IH (t ++ skipped_events w q))
        as [(pre & p & post & -> & Hpre & Hp & Hrun) | [Hall Hrun]].
      * left. exists (q :: pre), p, post.
        repeat split; auto.
        rewrite Hrun; simpl. now rewrite <- !app_assoc.
      * right. split; [constructor; assumption |].
        rewrite Hrun; simpl. now rewrite <- app_assoc.
Qed.

(** Font selection as a whole. *)
Lemma select_font_run (t : trace) :
  (exists pre p post,
      chinese_font_paths = pre ++ p :: post
      /\ Forall (fun q => usable w q = false) pre
      /\ usable w p = true
      /\ select_font w t
         = (Ok (lit "ChineseFont", lit "ChineseFont"),
            t ++ flat_map (skipped_events w) pre
              ++ [ RegisterFont (font_of_path p) None;
                   Printed (registered_line p) ]))
  \/ (Forall (fun q => usable w q = false) chinese_font_paths
      /\ select_font w t
         = (Ok (lit "Helvetica", lit "Helvetica-Bold"),
            t ++ flat_map (skipped_events w) chinese_font_paths
              ++ [Printed warning_line])).
Proof.
  assert (Hsel : select_font w t =
    match for_in chinese_font_paths (try_font w) false t with
    | (Ok true, t') => (Ok (lit "ChineseFont", lit "ChineseFont"), t')
    | (Ok false, t') =>
        (Ok (lit "Helvetica", lit "Helvetica-Bold"), t' ++ [Printed warning_line])
    | (Raise e, t') => (Raise e, t')
    end).
  { unfold select_font, bind at 1.
    destruct (for_in chinese_font_paths (try_font w) false t) as [[[]|e] t'];
      try reflexivity.
    cbv beta iota delta [negb bind print emit ret]. now rewrite Hok. }
  rewrite Hsel.
  destruct (for_in_try_font chinese_font_paths t)
    as [(pre & p & post & Hsplit & Hpre & Hp & Hrun) | [Hall Hrun]];
    rewrite Hrun.
  - left. exists pre, p, post. repeat split; auto.
  - right. split; [assumption |]. now rewrite <- app_assoc.
Qed.

End ConsoleOk.




(** Three runs of font selection. *)
Example select_font_mac :
  select_font mac_world []
  = (Ok (lit "ChineseFont", lit "ChineseFont"),
     [ RegisterFont (mkTTFont (lit "ChineseFont")
                              (lit "/System/Library/Fonts/PingFang.ttc") (Some 0))
                    None;
       Printed (check_mark ++ lit " Registered Chinese font: /System/Library/Fonts/PingFang.ttc") ]).
Proof. vm_compute. reflexivity. Qed.

Example select_font_windows :
  select_font windows_world []
  = (Ok (lit "ChineseFont", lit "ChineseFont"),
     [ RegisterFont (mkTTFont (lit "ChineseFont")
                              (lit "C:\Windows\Fonts\simhei.ttf") None)
                    (Some (Exception (lit "bad magic number")));
       Printed (lit "Failed to register C:\Windows\Fonts\simhei.ttf: bad magic number");
       RegisterFont (mkTTFont (lit "ChineseFont")
                              (lit "C:\Windows\Fonts\msyh.ttc") (Some 0))
                    None;
       Printed (check_mark ++ lit " Registered Chinese font: C:\Windows\Fonts\msyh.ttc") ]).
Proof. vm_compute. reflexivity. Qed.

Example select_font_bare :
  select_font bare_world []
  = (Ok (lit "Helvetica", lit "Helvetica-Bold"), [Printed warning_line]).
Proof. vm_compute. reflexivity. Qed.

(** ** The whole run *)

Section RunFacts.

Variable w : World.

Lemma first_error_app (s1 s2 : list Flowable) :
  first_error w (s1 ++ s2)
  = match first_error w s1 with
    | Some e => Some e
    | None => first_error w s2
    end.
Proof.
  induction s1 as [|b s1 IH]; [reflexivity |].
  destruct b as [text style | |]; simpl; try exact IH.
  destruct (paragraph_error w text style); [reflexivity | exact IH].
Qed.

(** One tab: its three blocks, unless one of its paragraphs does not
    parse. *)
Lemma append_tab_run (fn fnb : str) (tab : TabRecord)
      (story : list Flowable) (t : trace) :
  append_tab w fn fnb tab story t
  = match first_error w (tab_blocks fn fnb tab) with
    | None => (Ok (Continue, story ++ tab_blocks fn fnb tab), t)
    | Some e => (Raise e, t)
    end.
Proof.
  unfold append_tab, new_Paragraph, bind, ret, raise, tab_blocks,
    tab_header, url_line, url_markup, no_url_markup.
  cbn [first_error].
  destruct (paragraph_error w _ (tab_title_style fnb)); [reflexivity |].
  destruct (url tab) as [|c u]; cbn [truthy]; cbv beta iota;
    (destruct (paragraph_error w _ (tab_url_style fn)); [reflexivity |]);
    cbv beta iota; rewrite <- !app_assoc; reflexivity.
Qed.

(** The tab loop makes the blocks of the tabs in order and stops at the
    first paragraph that does not parse. *)
Lemma for_in_append_tab (fn fnb : str) (tabs : list TabRecord)
      (story : list Flowable) (t : trace) :
  for_in tabs (append_tab w fn fnb) story t
  = match first_error w (flat_map (tab_blocks fn fnb) tabs) with
    | None => (Ok (story ++ flat_map (tab_blocks fn fnb) tabs), t)
    | Some e => (Raise e, t)
    end.
Proof.
  revert story; induction tabs as [|tab tabs IH]; intros story.
  - simpl. now rewrite app_nil_r.
  - rewrite for_in_cons, append_tab_run. cbn [flat_map].
    rewrite first_error_app.
    destruct (first_error w (tab_blocks fn fnb tab)); [reflexivity |].
    rewrite IH, <- app_assoc. reflexivity.
Qed.

(** The story as the run makes it: the story of [build_story], unless one
    of its paragraphs does not parse. *)
Lemma make_story_run (fn fnb : str) (tabs : list TabRecord) (t : trace) :
  make_story w fn fnb tabs t
  = match first_error w (build_story fn fnb tabs (now_strftime w)) with
    | None => (Ok (build_story fn fnb tabs (now_strftime w)), t)
    | Some e => (Raise e, t)
    end.
Proof.
  rewrite build_story_blocks, first_error_app.
  unfold make_story, new_Paragraph, front_matter, bind, ret, raise.
  cbn [first_error].
  destruct (paragraph_error w _ (title_style fnb)); [reflexivity |].
  destruct (paragraph_error w _ (subtitle_style fn)); [reflexivity |].
  destruct (paragraph_error w (lit "Overview") _); [reflexivity |].
  destruct (paragraph_error w (lit "Detailed Tab List") _); [reflexivity |].
  rewrite for_in_append_tab. reflexivity.
Qed.

(** The run after font selection. *)
Lemma create_tabs_pdf_run (tabs : list TabRecord) (out : str) (t : trace) :
  create_tabs_pdf w tabs out t =
  match select_font w t with
  | (Raise e, t') => (Raise e, t')
  | (Ok (fn, fnb), t') =>
      let story := build_story fn fnb tabs (now_strftime w) in
      match first_error w story with
      | Some e => (Raise e, t')
      | None =>
          match doc_build w out story with
          | Some e => (Raise e, t' ++ [Built out story (Some e)])
          | None =>
              match stdout_write w (created_line out) with
              | Some e => (Raise e, t' ++ [Built out story None])
              | None =>
                  (Ok tt, t' ++ [ Built out story None;
                                  Printed (created_line out) ])
              end
          end
      end
  end.
Proof.
  unfold create_tabs_pdf, bind at 1.
  destruct (select_font w t) as [[[fn fnb]|e] t']; [| reflexivity].
  unfold bind at 1. rewrite make_story_run. cbv zeta.
  destruct (first_error w (build_story fn fnb tabs (now_strftime w)));
    [reflexivity |].
  unfold build, print, bind, emit, ret, raise.
  destruct (doc_build w out _); [reflexivity |].
  destruct (stdout_write w (created_line out));
    [reflexivity | now rewrite <- app_assoc].
Qed.

(** The stories a run hands to the builder, after those of the trace it
    starts from: the story of the fonts selected and the time read, when
    its paragraphs parse; none when one does not, or when font selection
    raises. *)
Lemma stories_built_run (tabs : list TabRecord) (out : str) (t : trace) :
  stories_built (snd (create_tabs_pdf w tabs out t))
  = stories_built t
    ++ match fst (select_font w t) with
       | Raise _ => []
       | Ok (fn, fnb) =>
           let story := build_story fn fnb tabs (now_strftime w) in
           match first_error w story with
           | Some _ => []
           | None => [story]
           end
       end.
Proof.
  rewrite create_tabs_pdf_run.
  destruct (select_font w t) as [r t'] eqn:Hsel.
  destruct (select_font_inv w t r t' Hsel) as (ev & -> & Hs & _).
  destruct r as [[fn fnb]|e]; cbn [fst snd];
    [| now rewrite stories_built_app, Hs].
  cbv zeta.
  destruct (first_error w (build_story fn fnb tabs (now_strftime w)));
    cbn [snd]; [now rewrite stories_built_app, Hs |].
  destruct (doc_build w out _); [|destruct (stdout_write w (created_line out))];
    cbn [snd]; rewrite !stories_built_app, Hs, app_nil_r; reflexivity.
Qed.

End RunFacts.

Lemma first_error_ext (w1 w2 : World) (story : list Flowable) :
  (forall text style, paragraph_error w1 text style = paragraph_error w2 text style) ->
  first_error w1 story = first_error w2 story.
Proof.
  intros H. induction story as [|b story IH]; [reflexivity |].
  destruct b as [text style | |]; simpl; try exact IH.
  rewrite H. destruct (paragraph_error w2 text style); [reflexivity | exact IH].
Qed.

(** C9. Two runs over the same tabs, with the same layout library, in
    environments that give the same timestamp and in which font selection
    has the same outcome, add the same stories to those handed to the
    builder before, whatever the files present, the console, the output
    file name, the success of the build and the calls made earlier.  What
    a run hands over is fixed by the tabs, the fonts and the timestamp: the
    seven front blocks followed by the three blocks of each tab, once, or
    nothing when one of these paragraphs does not parse. *)
Theorem story_determined_by_inputs
        (w1 w2 : World) (tabs : list TabRecord) (out1 out2 : str)
        (t1 t2 : trace) :
  now_strftime w1 = now_strftime w2 ->
  fst (select_font w1 t1) = fst (select_font w2 t2) ->
  (forall text style,
      paragraph_error w1 text style = paragraph_error w2 text style) ->
  exists built,
    stories_built (snd (create_tabs_pdf w1 tabs out1 t1))
    = stories_built t1 ++ built
    /\ stories_built (snd (create_tabs_pdf w2 tabs out2 t2))
       = stories_built t2 ++ built
    /\ (forall fn fnb,
          fst (select_font w1 t1) = Ok (fn, fnb) ->
          let story :=
            front_matter fn fnb (summary tabs) (now_strftime w1)
            ++ flat_map (tab_blocks fn fnb) tabs in
          built = match first_error w1 story with
                  | None => [story]
                  | Some _ => []
                  end).
Proof.
  intros Hnow Hfonts Hlib. rewrite !stories_built_run.
  eexists. split; [reflexivity |]. split.
  - rewrite <- Hfonts, <- Hnow.
    destruct (fst (select_font w1 t1)) as [[fn fnb]|e]; [| reflexivity].
    cbv zeta. now rewrite (first_error_ext w1 w2 _ Hlib).
  - intros fn fnb ->. cbv zeta. rewrite build_story_blocks.
    destruct (first_error w1 _); reflexivity.
Qed.

Lemma story_determined_by_inputs_witness :
  now_strftime mac_world = now_strftime windows_world
  /\ fst (select_font mac_world []) = fst (select_font windows_world [])
  /\ stories_built
       (snd (create_tabs_pdf mac_world tabs_data default_output_filename []))
     = stories_built
         (snd (create_tabs_pdf windows_world tabs_data (lit "tabs.pdf") [])).
Proof.
  assert (Hnow : now_strftime mac_world = now_strftime windows_world)
    by reflexivity.
  assert (Hfonts : fst (select_font mac_world [])
                   = fst (select_font windows_world []))
    by (vm_compute; reflexivity).
  assert (Hlib : forall text style,
             paragraph_error mac_world text style
             = paragraph_error windows_world text style)
    by reflexivity.
  split; [exact Hnow | split; [exact Hfonts |]].
  destruct (story_determined_by_inputs mac_world windows_world tabs_data
              default_output_filename (lit "tabs.pdf") [] [] Hnow Hfonts Hlib)
    as (built & H1 & H2 & _).
  rewrite H1, H2. reflexivity.
Defined.

(** The two runs themselves differ: one returns, the other raises. *)
Example runs_differ :
  fst (create_tabs_pdf mac_world tabs_data default_output_filename [])
  = Ok tt
  /\ fst (create_tabs_pdf windows_world tabs_data (lit "tabs.pdf") [])
     = Raise (Exception (lit "No space left on device")).
Proof. split; vm_compute; reflexivity. Qed.

(** A title that opens a tag and does not close it ends the run before the
    build; a console that cannot print the check mark ends it after. *)
Example run_without_build :
  create_tabs_pdf bare_world [bold_tab] default_output_filename []
  = (Raise (Exception (lit "Parse error: saw </para> instead of expected </b>")),
     [Printed warning_line]).
Proof. vm_compute. reflexivity. Qed.

Example run_without_success_line :
  fst (create_tabs_pdf redirected_world [timeout_tab] default_output_filename [])
  = Raise (Exception (lit "'charmap' codec can't encode character"))
  /\ length (stories_built
               (snd (create_tabs_pdf redirected_world [timeout_tab]
                                     default_output_filename [])))
     = 1%nat.
Proof. split; vm_compute; reflexivity. Qed.

(** ** Checks on concrete inputs *)

Example tab_header_devtools : tab_header devtools_tab = lit "Tab 13: DevTools".
Proof. reflexivity. Qed.

Example display_url_at_100 :
  display_url (repeat 97%N 100) = repeat 97%N 100.
Proof. vm_compute. reflexivity. Qed.

Example display_url_at_101 :
  display_url (repeat 97%N 101) = repeat 97%N 97 ++ lit "...".
Proof. vm_compute. reflexivity. Qed.

Example classify_devtools_tab :
  is_internal devtools_tab = true /\ is_empty_or_timeout devtools_tab = false.
Proof. split; reflexivity. Qed.

Example story_of_no_tabs :
  build_story (lit "Helvetica") (lit "Helvetica-Bold") [] sample_timestamp
  = front_matter (lit "Helvetica") (lit "Helvetica-Bold")
                 (mkCounts 0 0 0 0) sample_timestamp.
Proof. reflexivity. Qed.

Example story_of_tabs_data_length :
  length (build_story (lit "ChineseFont") (lit "ChineseFont")
                      tabs_data sample_timestamp) = 88%nat.
Proof. vm_compute. reflexivity. Qed.

(** * Further properties of the script *)

(** ** The two conditions together *)

Lemma is_internal_empty_url (t : TabRecord) :
  url t = [] -> is_internal t = false.
Proof. unfold is_internal. intros ->. reflexivity. Qed.

(** X1. A tab can be both internal and empty-or-timeout only through its
    title: it then has the title [(timeout)] and a url that is not empty. *)
Theorem internal_and_empty_by_title (t : TabRecord) :
  is_internal t = true ->
  is_empty_or_timeout t = true ->
  title t = lit "(timeout)" /\ url t <> [].
Proof.
  intros Hi He.
  assert (Hu : url t <> []).
  { intros Hnil. rewrite (is_internal_empty_url t Hnil) in Hi. discriminate. }
  split; [| exact Hu].
  apply is_empty_or_timeout_iff in He. destruct He as [He | He]; [contradiction | exact He].
Qed.

Lemma internal_and_empty_by_title_witness :
  is_internal timeout_internal_tab = true
  /\ is_empty_or_timeout timeout_internal_tab = true
  /\ title timeout_internal_tab = lit "(timeout)"
  /\ url timeout_internal_tab <> [].
Proof.
  assert (Hi : is_internal timeout_internal_tab = true) by reflexivity.
  assert (He : is_empty_or_timeout timeout_internal_tab = true) by reflexivity.
  split; [exact Hi | split; [exact He |]].
  exact (internal_and_empty_by_title timeout_internal_tab Hi He).
Defined.

(** ** The counts as functions of the list *)

Lemma length_filter_incl {A} (p q : A -> bool) (l : list A) :
  (forall x, In x l -> p x = true -> q x = true) ->
  (length (filter p l) <= length (filter q l))%nat.
Proof.
  induction l as [|x l IH]; intros H; simpl; [lia |].
  assert (IH' : (length (filter p l) <= length (filter q l))%nat).
  { apply IH. intros y Hy. apply H. now right. }
  destruct (p x) eqn:Hp.
  - rewrite (H x (or_introl eq_refl) Hp). simpl. lia.
  - destruct (q x); simpl; lia.
Qed.

Lemma length_filter_perm {A} (p : A -> bool) (l l' : list A) :
  Permutation l l' -> length (filter p l) = length (filter p l').
Proof.
  induction 1 as [| x l l' _ IH | x y l | l l' l'' _ IH1 _ IH2]; simpl.
  - reflexivity.
  - destruct (p x); simpl; now rewrite IH.
  - destruct (p x), (p y); reflexivity.
  - now rewrite IH1.
Qed.

(** X2. Every count lies between zero and the total; and when the tabs
    titled [(timeout)] all have an empty url, the empty-or-timeout tabs are
    all among the regular ones, so that empty <= regular. *)
Theorem summary_bounds (tabs : list TabRecord) :
  (forall t, In t tabs -> title t = lit "(timeout)" -> url t = []) ->
  let c := summary tabs in
  0 <= internal_tabs c <= total_tabs c
  /\ 0 <= empty_tabs c <= total_tabs c
  /\ empty_tabs c <= regular_tabs c.
Proof.
  intros H c. subst c. unfold summary; simpl.
  pose proof (length_filter_le is_internal tabs) as Hi.
  pose proof (length_filter_le is_empty_or_timeout tabs) as He.
  pose proof (length_filter_negb is_internal tabs) as Hn.
  assert (Hincl : (length (filter is_empty_or_timeout tabs)
                   <= length (filter (fun t => negb (is_internal t)) tabs))%nat).
  { apply length_filter_incl. intros t Ht Hempty.
    apply negb_true_iff, is_internal_empty_url.
    apply is_empty_or_timeout_iff in Hempty.
    destruct Hempty as [Hu | Hti]; [exact Hu | exact (H t Ht Hti)]. }
  lia.
Qed.

Lemma summary_bounds_witness :
  let c := summary [timeout_tab; devtools_tab] in
  empty_tabs c <= regular_tabs c.
Proof.
  assert (H : forall t, In t [timeout_tab; devtools_tab] ->
                        title t = lit "(timeout)" -> url t = []).
  { intros t [<- | [<- | []]]; [reflexivity | discriminate]. }
  exact (proj2 (proj2 (summary_bounds [timeout_tab; devtools_tab] H))).
Defined.

(** X3. The counts of a concatenation are the sums of the counts of its
    parts. *)
Theorem summary_app (l1 l2 : list TabRecord) :
  let c := summary (l1 ++ l2) in
  let c1 := summary l1 in
  let c2 := summary l2 in
  total_tabs c = total_tabs c1 + total_tabs c2
  /\ regular_tabs c = regular_tabs c1 + regular_tabs c2
  /\ internal_tabs c = internal_tabs c1 + internal_tabs c2
  /\ empty_tabs c = empty_tabs c1 + empty_tabs c2.
Proof.
  unfold summary; simpl.
  rewrite !filter_app, !length_app, !Nat2Z.inj_add.
  repeat split; lia.
Qed.

(** X4. The counts do not depend on the order of the tabs. *)
Theorem summary_permutation (l l' : list TabRecord) :
  Permutation l l' -> summary l = summary l'.
Proof.
  intros H. unfold summary.
  rewrite (Permutation_length H),
    (length_filter_perm is_internal l l' H),
    (length_filter_perm is_empty_or_timeout l l' H).
  reflexivity.
Qed.

Lemma summary_permutation_witness :
  Permutation [timeout_tab; devtools_tab] [devtools_tab; timeout_tab]
  /\ summary [timeout_tab; devtools_tab] = summary [devtools_tab; timeout_tab].
Proof.
  assert (H : Permutation [timeout_tab; devtools_tab] [devtools_tab; timeout_tab])
    by apply perm_swap.
  split; [exact H | exact (summary_permutation _ _ H)].
Defined.

(** ** The displayed url *)

(** X5. The displayed url has the length of the url capped at 100, keeps
    the first 97 characters of the url, is empty only for the empty url,
    and displaying it again changes nothing. *)
Theorem display_url_capped (u : str) :
  len (display_url u) = Z.min (len u) 100
  /\ firstn 97 (display_url u) = firstn 97 u
  /\ (display_url u = [] <-> u = [])
  /\ display_url (display_url u) = display_url u.
Proof.
  assert (Hlen : len (display_url u) = Z.min (len u) 100).
  { unfold display_url, slice_to, len.
    destruct (Z.gtb_spec (Z.of_nat (length u)) 100) as [Hgt | Hle]; [| lia].
    rewrite length_app, firstn_length_le by lia. simpl. lia. }
  split; [exact Hlen |]. split; [| split].
  - unfold display_url, slice_to, len.
    destruct (Z.gtb_spec (Z.of_nat (length u)) 100) as [Hgt | Hle]; [| reflexivity].
    rewrite firstn_app, firstn_firstn, firstn_length_le by lia.
    simpl. now rewrite app_nil_r.
  - split.
    + intros H. rewrite H in Hlen. unfold len in Hlen. simpl in Hlen.
      destruct u; [reflexivity | simpl in Hlen; lia].
    + intros ->. reflexivity.
  - unfold display_url at 1.
    destruct (Z.gtb_spec (len (display_url u)) 100) as [Hgt | Hle];
      [lia | reflexivity].
Qed.

(** ** Reading the tab header back *)

Lemma lit_inj (s s' : string) : lit s = lit s' -> s = s'.
Proof.
  unfold lit. intros H.
  rewrite <- (string_of_list_ascii_of_string s),
          <- (string_of_list_ascii_of_string s').
  f_equal.
  revert H. generalize (list_ascii_of_string s) (list_ascii_of_string s').
  induction l as [|a l IH]; intros [|b l'] H; try discriminate; [reflexivity |].
  injection H as Hab Hl.
  f_equal; [| now apply IH].
  now rewrite <- (ascii_N_embedding a), <- (ascii_N_embedding b), Hab.
Qed.

Lemma to_int_proper (n : Z) :
  Z.to_int n <> Decimal.Pos Decimal.Nil /\ Z.to_int n <> Decimal.Neg Decimal.Nil.
Proof.
  destruct n as [|p|p]; simpl; split; try discriminate;
    intros [= H]; exact (DecimalPos.Unsigned.to_uint_nonnil p H).
Qed.

Lemma of_int_inj (n m : Z) : of_int n = of_int m -> n = m.
Proof.
  unfold of_int. intros H. apply lit_inj in H.
  destruct (to_int_proper n) as [Hn1 Hn2], (to_int_proper m) as [Hm1 Hm2].
  pose proof (NilZero.isi (Z.to_int n) Hn1 Hn2) as En.
  pose proof (NilZero.isi (Z.to_int m) Hm1 Hm2) as Em.
  rewrite H, Em in En. injection En as En.
  now rewrite <- (DecimalZ.of_to n), <- (DecimalZ.of_to m), En.
Qed.

Lemma string_of_uint_no_colon (d : Decimal.uint) :
  Forall not_colon (lit (NilEmpty.string_of_uint d)).
Proof.
  induction d; simpl; constructor; try assumption; discriminate.
Qed.

Lemma of_int_no_colon (n : Z) : Forall not_colon (of_int n).
Proof.
  unfold of_int.
  assert (Hu : forall d, Forall not_colon (lit (NilZero.string_of_uint d))).
  { intros d. destruct d; try apply (string_of_uint_no_colon (_ d)).
    repeat constructor; discriminate. }
  destruct (Z.to_int n) as [d | d]; simpl.
  - apply Hu.
  - constructor; [discriminate | apply Hu].
Qed.

Lemma split_at_colon (a a' r r' : str) :
  Forall not_colon a -> Forall not_colon a' ->
  a ++ 58%N :: r = a' ++ 58%N :: r' ->
  a = a' /\ r = r'.
Proof.
  intros Ha; revert a'.
  induction Ha as [|c a Hc Ha IH]; intros a' Ha' H; destruct Ha' as [|c' a' Hc' Ha'];
    simpl in H.
  - injection H as ->. now split.
  - injection H as H _. symmetry in H. contradiction.
  - injection H as H _. contradiction.
  - injection H as -> H. destruct (IH a' Ha' H) as [-> ->]. now split.
Qed.

Lemma header_tail_inj (i i' : Z) (ti ti' : str) :
  of_int i ++ 58%N :: 32%N :: ti = of_int i' ++ 58%N :: 32%N :: ti' ->
  i = i' /\ ti = ti'.
Proof.
  intros H.
  apply split_at_colon in H; try apply of_int_no_colon.
  destruct H as [Hi Ht]. split; [now apply of_int_inj | now injection Ht].
Qed.

Lemma header_text_inj (i i' : Z) (ti ti' : str) :
  lit "Tab " ++ of_int i ++ lit ": " ++ ti
  = lit "Tab " ++ of_int i' ++ lit ": " ++ ti' ->
  i = i' /\ ti = ti'.
Proof.
  intros H. apply app_inv_head in H.
  change (lit ": ") with [58%N; 32%N] in H. simpl app in H.
  now apply header_tail_inj.
Qed.

(** X6. The header line of a tab determines its index and its title. *)
Theorem tab_header_inj (a b : TabRecord) :
  tab_header a = tab_header b -> index a = index b /\ title a = title b.
Proof. unfold tab_header. apply header_text_inj. Qed.

Lemma tab_header_inj_witness :
  index devtools_tab = 13 /\ title devtools_tab = lit "DevTools".
Proof.
  assert (H : tab_header devtools_tab
              = tab_header (mkTab 13 (lit "DevTools") [])) by reflexivity.
  exact (tab_header_inj devtools_tab (mkTab 13 (lit "DevTools") []) H).
Defined.

(** ** Reading the story back *)

Lemma url_line_inj (u u' : str) :
  url_line u = url_line u' -> display_url u = display_url u'.
Proof.
  destruct u as [|c u], u' as [|c' u']; unfold url_line; intros H.
  - reflexivity.
  - cbv -[display_url] in H. discriminate H.
  - cbv -[display_url] in H. discriminate H.
  - apply app_inv_head, app_inv_tail in H. exact H.
Qed.

Lemma tab_blocks_inj (fn fnb fn' fnb' : str) (l l' : list TabRecord) :
  flat_map (tab_blocks fn fnb) l = flat_map (tab_blocks fn' fnb') l' ->
  Forall2 same_display l l'.
Proof.
  revert l'; induction l as [|a l IH]; intros [|b l'] H.
  - constructor.
  - discriminate H.
  - discriminate H.
  - cbn [flat_map tab_blocks app] in H.
    injection H as Hh _ Hu _ Hrest.
    constructor; [| now apply IH].
    apply header_tail_inj in Hh. destruct Hh as [Hi Ht].
    repeat split; [exact Hi | exact Ht | now apply url_line_inj].
Qed.

Lemma display_url_nil (u : str) : display_url u = [] -> u = [].
Proof.
  unfold display_url. destruct (len u >? 100); [| trivial].
  intros H. apply app_eq_nil in H. destruct H as [_ H]. discriminate H.
Qed.

Lemma url_line_display (u u' : str) :
  display_url u = display_url u' -> url_line u = url_line u'.
Proof.
  intros H. destruct u as [|c u], u' as [|c' u']; unfold url_line.
  - reflexivity.
  - symmetry in H. apply display_url_nil in H. discriminate H.
  - apply display_url_nil in H. discriminate H.
  - now rewrite H.
Qed.

Lemma same_display_blocks (fn fnb : str) (l l' : list TabRecord) :
  Forall2 same_display l l' ->
  flat_map (tab_blocks fn fnb) l = flat_map (tab_blocks fn fnb) l'.
Proof.
  induction 1 as [|a b l l' (Hi & Ht & Hu) _ IH]; [reflexivity |].
  cbn [flat_map]. rewrite IH. f_equal.
  unfold tab_blocks. now rewrite Hi, Ht, (url_line_display _ _ Hu).
Qed.

(** X7. Two stories are equal exactly when they are built with the same
    font names and timestamp from tab lists that have the same counts and
    agree, tab by tab, on index, title and displayed url.  What the report
    loses of its input is the part of a url past the truncation point, as
    far as it leaves the counts alone. *)
Theorem story_inj (fn fnb fn' fnb' : str) (l l' : list TabRecord) (ts ts' : str) :
  build_story fn fnb l ts = build_story fn' fnb' l' ts'
  <-> fn = fn' /\ fnb = fnb' /\ ts = ts'
      /\ Forall2 same_display l l' /\ summary l = summary l'.
Proof.
  rewrite !build_story_blocks. split.
  - unfold front_matter. cbn [app].
    intros H.
    injection H; intros.
    repeat match goal with
           | E : _ ++ _ = _ ++ _ |- _ => apply app_inv_head in E
           | E : of_int _ = of_int _ |- _ => apply of_int_inj in E
           | E : flat_map _ _ = flat_map _ _ |- _ => apply tab_blocks_inj in E
           end.
    repeat split; try assumption.
    unfold summary. congruence.
  - intros (-> & -> & -> & Hl & Hs).
    now rewrite Hs, (same_display_blocks fn' fnb' l l' Hl).
Qed.

Lemma story_inj_witness :
  url long_tab <> url long_tab'
  /\ build_story (lit "Helvetica") (lit "Helvetica-Bold") [long_tab] sample_timestamp
     = build_story (lit "Helvetica") (lit "Helvetica-Bold") [long_tab'] sample_timestamp.
Proof.
  split; [intros E; vm_compute in E; discriminate E |].
  apply (story_inj (lit "Helvetica") (lit "Helvetica-Bold")
                   (lit "Helvetica") (lit "Helvetica-Bold")
                   [long_tab] [long_tab'] sample_timestamp sample_timestamp).
  repeat split; try reflexivity.
  constructor; [| constructor].
  repeat split; vm_compute; reflexivity.
Defined.

(** A marker past the truncation point is not displayed, and changes the
    counts. *)
Example marker_past_truncation :
  same_display long_tab long_tab_marked
  /\ summary [long_tab] <> summary [long_tab_marked].
Proof.
  split; [repeat split; vm_compute; reflexivity |].
  intros E. vm_compute in E. discriminate E.
Qed.

(** ** The run as a whole *)

(** X8. A run goes through four stages and stops at the first that raises,
    with that exception: font selection; making the paragraphs of the
    story, before any call of the builder; the build, called once on the
    whole story; the success line, printed last.  It returns only when all
    four succeed. *)
Theorem run_outcome (w : World) (tabs : list TabRecord) (out : str) (t : trace) :
  match select_font w t with
  | (Raise e, t') => create_tabs_pdf w tabs out t = (Raise e, t')
  | (Ok (fn, fnb), t') =>
      let story :=
        front_matter fn fnb (summary tabs) (now_strftime w)
        ++ flat_map (tab_blocks fn fnb) tabs in
      match first_error w story,
            doc_build w out story,
            stdout_write w (created_line out) with
      | Some e, _, _ =>
          create_tabs_pdf w tabs out t = (Raise e, t')
      | None, Some e, _ =>
          create_tabs_pdf w tabs out t
          = (Raise e, t' ++ [Built out story (Some e)])
      | None, None, Some e =>
          create_tabs_pdf w tabs out t
          = (Raise e, t' ++ [Built out story None])
      | None, None, None =>
          create_tabs_pdf w tabs out t
          = (Ok tt, t' ++ [Built out story None; Printed (created_line out)])
      end
  end.
Proof.
  rewrite create_tabs_pdf_run.
  destruct (select_font w t) as [[[fn fnb]|e] t']; [| reflexivity].
  cbv zeta. rewrite build_story_blocks.
  destruct (first_error w _); [reflexivity |].
  destruct (doc_build w out _); [reflexivity |].
  destruct (stdout_write w (created_line out)); reflexivity.
Qed.

(** ** What a run registers, and what its story refers to *)

(** The trace of a run is the trace of font selection, followed by at most
    the call of the builder and the success line. *)
Lemma create_tabs_pdf_trace (w : World) (tabs : list TabRecord) (out : str) :
  exists r ev rest,
    select_font w [] = (r, ev)
    /\ snd (create_tabs_pdf w tabs out []) = ev ++ rest
    /\ registered rest = []
    /\ (forall f o, ~ In (RegisterFont f o) rest)
    /\ (forall story, In story (stories_built (ev ++ rest)) ->
          exists fn fnb o tl,
            r = Ok (fn, fnb)
            /\ story = build_story fn fnb tabs (now_strftime w)
            /\ rest = Built out story o :: tl
            /\ registered tl = []).
Proof.
  destruct (select_font w []) as [r ev] eqn:Hsel.
  destruct (select_font_inv w [] r ev Hsel) as (ev' & Hev & Hs & _).
  simpl in Hev. subst ev'.
  rewrite create_tabs_pdf_run, Hsel.
  destruct r as [[fn fnb]|e].
  - cbv zeta.
    destruct (first_error w (build_story fn fnb tabs (now_strftime w))).
    + exists (Ok (fn, fnb)), ev, []. rewrite app_nil_r.
      repeat split; try (now intros); rewrite Hs; intros story [].
    + destruct (doc_build w out _) as [e|] eqn:Hb;
        [| destruct (stdout_write w (created_line out))];
        eexists _, ev, _; (split; [reflexivity |]);
        (split; [reflexivity |]); (split; [reflexivity |]);
        (split; [intros f o Hin; simpl in Hin; intuition discriminate |]);
        rewrite stories_built_app, Hs; intros story [<- | []];
        eexists fn, fnb, _, _; repeat split.
  - exists (Raise e), ev, []. rewrite app_nil_r.
    repeat split; try (now intros); rewrite Hs; intros story [].
Qed.

(** X9. Whatever a run passes to [registerFont] is a font named
    [ChineseFont] made from one of the candidate paths, for a file that
    exists, with [subfontIndex=0] exactly for the paths ending in [.ttc]. *)
Theorem registrations_from_candidates
        (w : World) (tabs : list TabRecord) (out : str)
        (f : TTFont) (o : option exn) :
  In (RegisterFont f o) (snd (create_tabs_pdf w tabs out [])) ->
  exists q,
    In q chinese_font_paths
    /\ path_exists w q = true
    /\ f = mkTTFont (lit "ChineseFont") q
                    (if endswith (lit ".ttc") q then Some 0 else None)
    /\ o = registerFont w f.
Proof.
  intros Hin.
  destruct (create_tabs_pdf_trace w tabs out)
    as (r & ev & rest & Hsel & Htrace & _ & Hrest & _).
  rewrite Htrace in Hin. apply in_app_or in Hin.
  destruct Hin as [Hin | Hin]; [| now apply Hrest in Hin].
  destruct (select_font_inv w [] r ev Hsel) as (ev' & Hev & _ & Hreg & _).
  simpl in Hev. subst ev'.
  destruct (Hreg f o Hin) as (q & Hq & Hex & Hf & Ho).
  exists q. repeat split; try assumption.
  rewrite Hf. unfold font_of_path. now destruct (endswith (lit ".ttc") q).
Qed.

Lemma registrations_from_candidates_witness :
  exists q,
    In q chinese_font_paths
    /\ path_exists windows_world q = true
    /\ mkTTFont (lit "ChineseFont") (lit "C:\Windows\Fonts\msyh.ttc") (Some 0)
       = mkTTFont (lit "ChineseFont") q
                  (if endswith (lit ".ttc") q then Some 0 else None)
    /\ None = registerFont windows_world
                (mkTTFont (lit "ChineseFont") (lit "C:\Windows\Fonts\msyh.ttc") (Some 0)).
Proof.
  apply (registrations_from_candidates windows_world tabs_data (lit "tabs.pdf")).
  vm_compute. right. right. left. reflexivity.
Defined.

Lemma fonts_used_app (s1 s2 : list Flowable) :
  fonts_used (s1 ++ s2) = fonts_used s1 ++ fonts_used s2.
Proof. apply flat_map_app. Qed.

Lemma fonts_used_story (fn fnb : str) (tabs : list TabRecord) (ts : str) :
  Forall (fun n => n = fn \/ n = fnb) (fonts_used (build_story fn fnb tabs ts)).
Proof.
  rewrite build_story_blocks, fonts_used_app. apply Forall_app. split.
  - cbn. repeat (apply Forall_cons; [auto |]). apply Forall_nil.
  - induction tabs as [|tab tabs IH]; [constructor |].
    cbn [flat_map]. rewrite fonts_used_app. apply Forall_app. split.
    + cbn. repeat (apply Forall_cons; [auto |]). apply Forall_nil.
    + exact IH.
Qed.

Lemma in_registered (f : TTFont) (t : trace) :
  In f (registered t) -> In (RegisterFont f None) t.
Proof.
  unfold registered. intros H. apply in_flat_map in H.
  destruct H as (ev & Hev & Hin).
  destruct ev as [line | f' [e|] | out story o]; try contradiction.
  destruct Hin as [<- | []]. exact Hev.
Qed.

(** X10. A story that a run hands to the builder names the font
    [ChineseFont] only when the run has registered a font before the
    build, each font it registered being named [ChineseFont]; otherwise
    nothing was registered and the story names only [Helvetica] and
    [Helvetica-Bold].  Nothing is registered after the build. *)
Theorem story_fonts_registered
        (w : World) (tabs : list TabRecord) (out : str) (story : list Flowable) :
  In story (stories_built (snd (create_tabs_pdf w tabs out []))) ->
  exists t1 o rest,
    snd (create_tabs_pdf w tabs out []) = t1 ++ Built out story o :: rest
    /\ registered rest = []
    /\ ((registered t1 <> []
         /\ Forall (fun f => face_name f = lit "ChineseFont") (registered t1)
         /\ Forall (fun n => n = lit "ChineseFont") (fonts_used story))
        \/ (registered t1 = []
            /\ Forall (fun n => n = lit "Helvetica" \/ n = lit "Helvetica-Bold")
                      (fonts_used story))).
Proof.
  intros Hin.
  destruct (create_tabs_pdf_trace w tabs out)
    as (r & ev & rest & Hsel & Htrace & _ & _ & Hstories).
  rewrite Htrace in Hin.
  destruct (Hstories story Hin) as (fn & fnb & o & tl & -> & -> & -> & Htl).
  exists ev, o, tl. split; [exact Htrace |]. split; [exact Htl |].
  destruct (select_font_inv w [] _ ev Hsel) as (ev' & Hev & _ & Hreg & Hfonts).
  simpl in Hev. subst ev'.
  destruct (Hfonts (fn, fnb) eq_refl) as [Hchoice Hiff].
  destruct (existsb (usable w) chinese_font_paths).
  - left. injection Hchoice as -> ->. split; [| split].
    + intros Hnil. apply Hiff in Hnil. discriminate Hnil.
    + apply Forall_forall. intros f Hf. apply in_registered in Hf.
      destruct (Hreg f None Hf) as (q & _ & _ & -> & _).
      unfold font_of_path. now destruct (endswith (lit ".ttc") q).
    + eapply Forall_impl; [| apply fonts_used_story]. cbv beta. tauto.
  - right. injection Hchoice as -> ->. split; [now apply Hiff |].
    apply fonts_used_story.
Qed.

Lemma story_fonts_registered_witness :
  exists t1 o rest,
    snd (create_tabs_pdf redirected_world [timeout_tab] default_output_filename [])
    = t1 ++ Built default_output_filename
                  (build_story (lit "ChineseFont") (lit "ChineseFont")
                               [timeout_tab] sample_timestamp) o :: rest
    /\ registered rest = []
    /\ ((registered t1 <> []
         /\ Forall (fun f => face_name f = lit "ChineseFont") (registered t1)
         /\ Forall (fun n => n = lit "ChineseFont")
                   (fonts_used (build_story (lit "ChineseFont") (lit "ChineseFont")
                                            [timeout_tab] sample_timestamp)))
        \/ (registered t1 = []
            /\ Forall (fun n => n = lit "Helvetica" \/ n = lit "Helvetica-Bold")
                      (fonts_used (build_story (lit "ChineseFont") (lit "ChineseFont")
                                               [timeout_tab] sample_timestamp)))).
Proof.
  apply (story_fonts_registered redirected_world [timeout_tab]
           default_output_filename).
  vm_compute. left. reflexivity.
Defined.

(** ** Placeholders and the empty count *)

Lemma placeholders_tab_blocks (fn fnb : str) (tabs : list TabRecord) :
  length (filter is_placeholder (flat_map (tab_blocks fn fnb) tabs))
  = length (filter (fun t => negb (truthy (url t))) tabs).
Proof.
  induction tabs as [|tab tabs IH]; [reflexivity |].
  cbn [flat_map]. rewrite filter_app, length_app, IH.
  unfold tab_blocks. cbn [filter].
  destruct (url tab) as [|c u]; cbn; reflexivity.
Qed.

(** X11. The story shows the [(No URL)] placeholder once for each tab with
    an empty url and nowhere else, so the number of placeholders is at most
    the empty-or-timeout count of the summary table. *)
Theorem placeholders_count (fn fnb : str) (tabs : list TabRecord) (ts : str) :
  let story := build_story fn fnb tabs ts in
  length (filter is_placeholder story)
  = length (filter (fun t => negb (truthy (url t))) tabs)
  /\ Z.of_nat (length (filter is_placeholder story))
     <= empty_tabs (summary tabs).
Proof.
  cbv zeta.
  assert (H : length (filter is_placeholder (build_story fn fnb tabs ts))
              = length (filter (fun t => negb (truthy (url t))) tabs)).
  { rewrite build_story_blocks, filter_app, length_app, placeholders_tab_blocks.
    reflexivity. }
  split; [exact H |].
  rewrite H. unfold summary; simpl.
  apply Nat2Z.inj_le, length_filter_incl.
  intros t _ Ht. unfold is_empty_or_timeout. now rewrite Ht.
Qed.

(** ** Which fonts are selected *)

Lemma endswith_spec (suffix s : str) :
  endswith suffix s = true <-> exists k, s = k ++ suffix.
Proof.
  unfold endswith. rewrite startswith_spec. unfold StartsWith. split.
  - intros [k Hk]. exists (rev k).
    rewrite <- (rev_involutive s), Hk, rev_app_distr, rev_involutive.
    reflexivity.
  - intros [k ->]. exists (rev k). apply rev_app_distr.
Qed.

Lemma existsb_usable_split (w : World) (pre post : list str) (p : str) :
  usable w p = true -> existsb (usable w) (pre ++ p :: post) = true.
Proof.
  intros Hp. rewrite existsb_app. simpl. rewrite Hp.
  now rewrite orb_true_r.
Qed.

Lemma existsb_usable_none (w : World) (paths : list str) :
  Forall (fun q => usable w q = false) paths ->
  existsb (usable w) paths = false.
Proof.
  induction 1 as [|q paths Hq _ IH]; [reflexivity |].
  simpl. now rewrite Hq, IH.
Qed.


